(** * kaggle-submit-notifier: the submission watcher of [main.py]

    A shallow embedding of [main.py] and the properties of its tracking
    state machine, its change reporting and its record normalisation.

    Modelling conventions.
    - A Python [str] is a Rocq [string]: the sequence of the bytes of its
      UTF-8 encoding.  Equality of strings is preserved by that encoding, so
      the comparisons of the source (with the em-dash among them) are exact.
      [str.isdigit], [str.lower] and [int(str)] are modelled on ASCII text;
      characters outside ASCII are neither digits nor letters here.
    - A Python [int] is a [Z].
    - A naive [datetime] is a [Z]: the microseconds since 1970-01-01 00:00:00;
      a [timedelta] is the difference of two of them.
      [timedelta.total_seconds()] is the exact rational number of seconds
      (the float of the source is exact for differences below 2^53
      microseconds, some 285 years).
    - The attribute values of a submission record are the type [value];
      floats and booleans are not modelled.  [int(str)] is modelled without
      the limit that CPython puts on the number of digits.
    - [track], the dict of the watcher, is a [gmap Z Entry].
    - Exceptions are explicit: a computation that may raise returns a [Res];
      the loop of the watcher runs in a state monad over the [World] (the
      clock, the HTTP attempts made, and the trace of what was printed,
      posted and slept). *)

From Stdlib Require Import ZArith QArith Qround Lia Ascii String DecimalString.
From stdpp Require Import gmap strings list.

Close Scope Q_scope.
Local Open Scope Z_scope.

(** ** Strings *)

Module Str.

Definition code (c : ascii) : Z := Z.of_nat (nat_of_ascii c).

  (** [ch.isdigit()], on ASCII. *)
Definition isdigit (c : ascii) : bool :=
    (48 <=? code c) && (code c <=? 57).

  (** The whitespace that [int(str)] strips, on ASCII:
      tab, LF, VT, FF, CR, FS, GS, RS, US and the space. *)
Definition isspace (c : ascii) : bool :=
    ((9 <=? code c) && (code c <=? 13))
    || ((28 <=? code c) && (code c <=? 32)).

Definition isupper (c : ascii) : bool :=
    (65 <=? code c) && (code c <=? 90).

Definition lower_char (c : ascii) : ascii :=
    if isupper c then ascii_of_nat (nat_of_ascii c + 32) else c.

  (** [s.lower()], on ASCII. *)
Fixpoint lower (s : string) : string :=
    match s with
    | EmptyString => EmptyString
    | String c r => String (lower_char c) (lower r)
    end.

  (** ["".join(ch for ch in s if p(ch))] *)
Fixpoint filter (p : ascii -> bool) (s : string) : string :=
    match s with
    | EmptyString => EmptyString
    | String c r => if p c then String c (filter p r) else filter p r
    end.

Definition is_empty (s : string) : bool :=
    match s with EmptyString => true | _ => false end.

Fixpoint lstrip (s : string) : string :=
    match s with
    | EmptyString => EmptyString
    | String c r => if isspace c then lstrip r else s
    end.

Fixpoint rstrip (s : string) : string :=
    match s with
    | EmptyString => EmptyString
    | String c r =>
        let r' := rstrip r in
        if isspace c && is_empty r' then EmptyString else String c r'
    end.

Definition strip (s : string) : string := rstrip (lstrip s).

  (** [s.startswith(p)] *)
Fixpoint startswith (p s : string) : bool :=
    match p, s with
    | EmptyString, _ => true
    | String a p', String b s' => if Ascii.eqb a b then startswith p' s' else false
    | String _ _, EmptyString => false
    end.

  (** [s.replace(old, "")] for a non-empty [old]: the occurrences of [old]
      are removed from left to right, without overlap.  [skip] counts the
      characters of the occurrence being removed that are still ahead. *)
Fixpoint remove_from (old : string) (skip : nat) (s : string) : string :=
    match s with
    | EmptyString => EmptyString
    | String c r =>
        match skip with
        | S k => remove_from old k r
        | O =>
            if startswith old s
            then remove_from old (String.length old - 1) r
            else String c (remove_from old O r)
        end
    end.

Definition remove (old s : string) : string := remove_from old O s.

  (** The value of a string of decimal digits, most significant first. *)
Fixpoint digits_value (acc : Z) (s : string) : Z :=
    match s with
    | EmptyString => acc
    | String c r => digits_value (10 * acc + (code c - 48)) r
    end.

  (** [str(n)] for an int. *)
Definition of_Z (n : Z) : string := NilZero.string_of_int (Z.to_int n).

  (** [n] in decimal, padded with zeros on the left to [width] characters
      (the [%02d] and [%04d] of a date format, for [0 <= n]). *)
Fixpoint zeros (k : nat) : string :=
    match k with O => EmptyString | S k' => String "0" (zeros k') end.

Definition zfill (width : nat) (n : Z) : string :=
    let d := of_Z n in
    String.app (zeros (width - String.length d)) d.

  (** [all(p(ch) for ch in s)] *)
Fixpoint all (p : ascii -> bool) (s : string) : bool :=
    match s with
    | EmptyString => true
    | String c r => p c && all p r
    end.

  (** [old in s]: [old] occurs in [s] at some position. *)
Fixpoint occurs (old s : string) : bool :=
    match s with
    | EmptyString => false
    | String _ r => startswith old s || occurs old r
    end.

End Str.

(** ** Values and exceptions *)

(** What an attribute of a submission record can hold. [VEnum cls name] is
    a member of an [enum.Enum] class: its [.name] is [name] and its [str()]
    is [cls.name]. [VDate us] is a naive datetime. *)
Inductive value : Type :=
| VNone
| VStr (s : string)
| VInt (n : Z)
| VEnum (cls name : string)
| VDate (us : Z).

#[global] Instance value_eq_dec : EqDecision value.
Proof. solve_decision. Defined.

Inductive exn : Type :=
| TypeError (msg : string)
| ValueError (msg : string)
| RequestException (msg : string)
| HTTPError (msg : string)
| ApiException (msg : string).

(** The outcome of a call: a result or a raised exception. *)
Inductive Res (A : Type) : Type :=
| Ok (a : A)
| Raise (e : exn).
Arguments Ok {A} a.
Arguments Raise {A} e.

(** ** Dates *)

Module Date.

Definition us_per_second : Z := 1000000.
Definition us_per_day : Z := 86400 * us_per_second.

  (** The civil date (year, month, day) of a day number counted from
      1970-01-01, in the proleptic Gregorian calendar of [datetime]. *)
Definition civil_from_days (days : Z) : Z * Z * Z :=
    let z := days + 719468 in
    let era := z / 146097 in
    let doe := z - era * 146097 in
    let yoe := (doe - doe / 1460 + doe / 36524 - doe / 146096) / 365 in
    let doy := doe - (365 * yoe + yoe / 4 - yoe / 100) in
    let mp := (5 * doy + 2) / 153 in
    let d := doy - (153 * mp + 2) / 5 + 1 in
    let m := if mp <? 10 then mp + 3 else mp - 9 in
    let y := yoe + era * 400 + (if m <=? 2 then 1 else 0) in
    (y, m, d).

  (** [dt.strftime('%Y-%m-%d %H:%M:%S')], for the years 1000 to 9999. *)
Definition strftime (us : Z) : string :=
    let days := us / us_per_day in
    let secs := (us mod us_per_day) / us_per_second in
    let '(y, m, d) := civil_from_days days in
    String.concat ""
      [Str.zfill 4 y; "-"; Str.zfill 2 m; "-"; Str.zfill 2 d; " ";
       Str.zfill 2 (secs / 3600); ":"; Str.zfill 2 ((secs / 60) mod 60); ":";
       Str.zfill 2 (secs mod 60)]%string.

  (** [str(dt)]: the microseconds are shown when they are not zero. *)
Definition str (us : Z) : string :=
    let frac := us mod us_per_second in
    if frac =? 0 then strftime us
    else String.app (strftime us) (String.app "." (Str.zfill 6 frac)).

End Date.

(** ** Conversions of values *)

(** [str(v)], which is also what an f-string field [{v}] shows. *)
Definition py_str (v : value) : string :=
  match v with
  | VNone => "None"
  | VStr s => s
  | VInt n => Str.of_Z n
  | VEnum cls name => String.app cls (String.app "." name)
  | VDate us => Date.str us
  end.

(** The truth value of [v] in an [if]. *)
Definition truthy (v : value) : bool :=
  match v with
  | VNone => false
  | VStr s => negb (Str.is_empty s)
  | VInt n => negb (n =? 0)
  | VEnum _ _ => true
  | VDate _ => true
  end.

(** The digits of an integer literal: digits, with single underscores
    between digits only. [seen] tells that the previous character was a
    digit. *)
Fixpoint int_digits (acc : Z) (seen : bool) (s : string) : option Z :=
  match s with
  | EmptyString => if seen then Some acc else None
  | String c r =>
      if Str.isdigit c then int_digits (10 * acc + (Str.code c - 48)) true r
      else if Ascii.eqb c "_" then (if seen then int_digits acc false r else None)
      else None
  end.

(** [int(s)] for a string, in base 10: surrounding whitespace is dropped,
    one sign is accepted, and [ValueError] is raised for anything else. *)
Definition int_of_str (s : string) : Res Z :=
  let t := Str.strip s in
  let parsed :=
    match t with
    | String c r =>
        if Ascii.eqb c "-" then Z.opp <$> int_digits 0 false r
        else if Ascii.eqb c "+" then int_digits 0 false r
        else int_digits 0 false t
    | EmptyString => None
    end in
  match parsed with
  | Some n => Ok n
  | None => Raise (ValueError "invalid literal for int() with base 10")
  end.

(** [int(v)] *)
Definition py_int (v : value) : Res Z :=
  match v with
  | VInt n => Ok n
  | VStr s => int_of_str s
  | VNone | VEnum _ _ | VDate _ =>
      Raise (TypeError "int() argument must be a string, a bytes-like object or a real number")
  end.

(** ** Submission records *)

(** A record of the submission API, as [get_attr] sees it: [py_attrs] is
    what [hasattr] and [getattr] resolve, [py_dict] is its [__dict__]
    (empty for an object that has none). *)
Record PyObj : Type := mkObj {
  py_attrs : gmap string value;
  py_dict : gmap string value
}.

(** [v in (None, "", "-", "—")] *)
Definition is_sentinel (v : value) : bool :=
  match v with
  | VNone => true
  | VStr s => bool_decide (s = "") || bool_decide (s = "-") || bool_decide (s = "—")
  | _ => false
  end.

(** One loop of [get_attr]: the first of [names] that is present in [m]
    with a value that is no sentinel. *)
Fixpoint first_present (m : gmap string value) (names : list string) : option value :=
  match names with
  | [] => None
  | name :: rest =>
      match m !! name with
      | Some v => if is_sentinel v then first_present m rest else Some v
      | None => first_present m rest
      end
  end.

Definition get_attr (s : PyObj) (names : list string) (default : value) : value :=
  match first_present (py_attrs s) names with
  | Some v => v
  | None =>
      match first_present (py_dict s) names with
      | Some v => v
      | None => default
      end
  end.

Definition get_ref (s : PyObj) : Res Z :=
  let r := get_attr s ["_ref"; "ref"] VNone in
  match py_int r with
  | Ok n => Ok n
  | Raise _ =>
      let rs := py_str r in
      let digits := Str.filter Str.isdigit rs in
      if Str.is_empty digits then Ok (-1) else py_int (VStr digits)
  end.

Definition status_text (s : PyObj) : string :=
  let st := get_attr s ["_status"; "status"] (VStr "") in
  let name := match st with VEnum _ name => name | _ => py_str st end in
  let name_lower := Str.lower (Str.remove "SubmissionStatus." name) in
  if bool_decide (name_lower = "completed") || bool_decide (name_lower = "complete")
  then "complete"
  else if bool_decide (name_lower = "uploading") then "pending"
  else name_lower.

Definition score_display (s : PyObj) : string :=
  let pub := get_attr s ["_public_score"; "publicScore"; "publicScoreDisplay"; "scoreDisplay"] VNone in
  let prv := get_attr s ["_private_score"; "privateScore"; "privateScoreDisplay"] VNone in
  let pub_str := if is_sentinel pub then None else Some (py_str pub) in
  let prv_str := if is_sentinel prv then None else Some (py_str prv) in
  let nonempty (o : option string) := match o with Some t => negb (Str.is_empty t) | None => false end in
  if nonempty pub_str && nonempty prv_str then
    String.concat "" ["Public LB: *"; default "" pub_str; "* / Private LB: *"; default "" prv_str; "*"]%string
  else if nonempty pub_str then
    String.concat "" ["Public LB: *"; default "" pub_str; "*"]%string
  else if nonempty prv_str then
    String.concat "" ["Private LB: *"; default "" prv_str; "*"]%string
  else "Public LB: (N/A)".

Definition fmt_jst (dt_utc_naive : Z) : string :=
  Date.strftime (dt_utc_naive + 9 * 3600 * Date.us_per_second).

Definition submission_url (s : PyObj) (competition : string) : string :=
  let url_path := get_attr s ["_url"; "url"] VNone in
  if truthy url_path
  then String.app "https://www.kaggle.com" (py_str url_path)
  else String.concat "" ["https://www.kaggle.com/competitions/"; competition; "/submissions"]%string.

(** [(to_dt - from_dt).total_seconds()], for a difference in microseconds. *)
Definition total_seconds (td : Z) : Q := Qmake td 1000000.

(** [x // y] on numbers that are no ints, and [int()] of its result. *)
Definition floordiv (x y : Q) : Z := Qfloor (Qdiv x y).

(** Subtracting from a datetime something that is none raises [TypeError]. *)
Definition elapsed_minutes (from_dt : value) (to_dt : Z) : Res Z :=
  match from_dt with
  | VDate f =>
      let mins := floordiv (total_seconds (to_dt - f)) (inject_Z 60) in
      Ok (Z.max 1 mins)
  | _ => Raise (TypeError "unsupported operand type(s) for -")
  end.

(** ** The world of the watcher *)

(** The JSON values of a Slack payload. *)
#[warnings="-register-all"]
Inductive Json : Type :=
| JStr (s : string)
| JArr (items : list Json)
| JObj (fields : list (string * Json)).

(** What [requests.post] does on one attempt: a response with its status
    code and reason, or an exception of the transport. *)
Inductive HttpOutcome : Type :=
| Response (status : Z) (reason : string)
| Failure (e : exn).

(** The trace of the watcher. [Notification ref text blocks] marks a call
    of [slack_post] by the reporting pass for the submission [ref];
    [Posted], [Printed] and [Slept] are the calls of [requests.post],
    [print] and [time.sleep]. *)
Inductive Event : Type :=
| Notification (ref : Z) (text : string) (blocks : option (list Json))
| Posted (url : string) (body : Json)
| Printed (line : string)
| Slept (sec : Z).

Record World : Type := mkWorld {
  w_ticks : nat;          (* readings of the clock taken so far *)
  w_posts : nat;          (* HTTP attempts made so far *)
  w_log : list Event      (* the trace, oldest event first *)
}.

(** A computation of the watcher: it reads and extends the world, and
    returns or raises. *)
Definition M (A : Type) : Type := World -> Res A * World.

Definition ret {A} (a : A) : M A := fun w => (Ok a, w).

Definition raise {A} (e : exn) : M A := fun w => (Raise e, w).

Definition bind {A B} (m : M A) (k : A -> M B) : M B :=
  fun w =>
    match m w with
    | (Ok a, w') => k a w'
    | (Raise e, w') => (Raise e, w')
    end.

(** [try: m  except Exception as e: h(e)] *)
Definition try_except {A} (m : M A) (h : exn -> M A) : M A :=
  fun w =>
    match m w with
    | (Ok a, w') => (Ok a, w')
    | (Raise e, w') => h e w'
    end.

Definition lift {A} (r : Res A) : M A := fun w => (r, w).

Declare Scope watcher_scope.
Delimit Scope watcher_scope with watcher.
Notation "x <~ m ; k" := (bind m (fun x => k))
  (at level 20, m at level 100, k at level 200, only parsing) : watcher_scope.
Notation "m ;; k" := (bind m (fun _ => k))
  (at level 100, k at level 200, only parsing, right associativity) : watcher_scope.

Definition exn_str (e : exn) : string :=
  match e with
  | TypeError m | ValueError m | RequestException m | HTTPError m | ApiException m => m
  end.

Definition nl : string := String (ascii_of_nat 10) EmptyString.

(** An f-string: the concatenation of its pieces. *)
Definition fstr (pieces : list string) : string := String.concat "" pieces.

(** ** Tracked entries *)

Record Entry : Type := mkEntry {
  submit_time : value;
  last_seen_status : string;
  last_reported_status : option string
}.

#[global] Instance Entry_eq_dec : EqDecision Entry.
Proof. solve_decision. Defined.

Definition set_seen (seen : string) (e : Entry) : Entry :=
  mkEntry (submit_time e) seen (last_reported_status e).

Definition set_reported (st : string) (e : Entry) : Entry :=
  mkEntry (submit_time e) (last_seen_status e) (Some st).

Abbreviation Track := (gmap Z Entry).

(** ** The watcher *)

Section Watcher.

  (** The environment: the successive readings of the clock and the outcomes
      of the successive HTTP attempts. *)
Variable clk : nat -> Z.
Variable http : nat -> HttpOutcome.

  (** The arguments of [run_watcher]. *)
Variable webhook_url : string.
Variable competition : string.
Variable interval_min : Z.

Local Open Scope watcher_scope.

Definition trace (e : Event) : M unit :=
    fun w => (Ok tt, mkWorld (w_ticks w) (w_posts w) (w_log w ++ [e])).

Definition print (line : string) : M unit := trace (Printed line).

Definition sleep (sec : Z) : M unit := trace (Slept sec).

  (** [datetime.datetime.now(timezone.utc).replace(tzinfo=None)] *)
Definition now : M Z :=
    fun w => (Ok (clk (w_ticks w)), mkWorld (S (w_ticks w)) (w_posts w) (w_log w)).

  (** [requests.post(url, data=json.dumps(payload), ...)]: one attempt. *)
Definition requests_post (url : string) (body : Json) : M (Z * string) :=
    fun w =>
      let w' := mkWorld (w_ticks w) (S (w_posts w)) (w_log w ++ [Posted url body]) in
      match http (w_posts w) with
      | Response status reason => (Ok (status, reason), w')
      | Failure e => (Raise e, w')
      end.

  (** [resp.raise_for_status()] *)
Definition raise_for_status (url : string) (resp : Z * string) : M unit :=
    let '(status, reason) := resp in
    if (400 <=? status) && (status <? 500) then
      raise (HTTPError (fstr [Str.of_Z status; " Client Error: "; reason; " for url: "; url]))
    else if (500 <=? status) && (status <? 600) then
      raise (HTTPError (fstr [Str.of_Z status; " Server Error: "; reason; " for url: "; url]))
    else ret tt.

Definition slack_post (url text : string) (blocks : option (list Json)) : M unit :=
    if Str.is_empty url then
      print (String.app "[WARN] Slack webhook not configured: " text)
    else
      let payload :=
        match blocks with
        | Some (b :: bs) => JObj [("text", JStr text); ("blocks", JArr (b :: bs))]
        | _ => JObj [("text", JStr text)]
        end in
      try_except
        (resp <~ requests_post url payload; raise_for_status url resp)
        (fun e => print (String.app "[Slack post failed] " (exn_str e))).

Definition fmt_jst_of (v : value) : Res string :=
    match v with
    | VDate t => Ok (fmt_jst t)
    | _ => Raise (TypeError "replace() takes no keyword arguments")
    end.

Definition mrkdwn (text : string) : Json :=
    JObj [("type", JStr "mrkdwn"); ("text", JStr text)].

  (** The update of [track] for one record: the body of the first loop. *)
Definition track_one (s : PyObj) (track : Track) : M Track :=
    ref <~ lift (get_ref s);
    if ref =? -1 then ret track
    else
      let seen := status_text s in
      let submit_dt := get_attr s ["_date"; "date"] VNone in
      submit_dt <~ (match submit_dt with
                    | VNone => t <~ now; ret (VDate t)
                    | _ => ret submit_dt
                    end);
      match track !! ref with
      | None =>
          let track := <[ref := mkEntry submit_dt seen None]> track in
          if bool_decide (seen = "complete")
          then ret (alter (set_reported "complete") ref track)
          else ret track
      | Some info => ret (<[ref := set_seen seen info]> track)
      end.

Fixpoint track_loop (subs : list PyObj) (track : Track) : M Track :=
    match subs with
    | [] => ret track
    | s :: rest => track <~ track_one s track; track_loop rest track
    end.

  (** The call of [slack_post] for the status [seen] of [ref]: the four
      branches of the reporting loop. *)
Definition notify (s : PyObj) (ref : Z) (seen : string) (el_min : Z)
      (link : string) (submit_time : value) : M unit :=
    let post text blocks :=
      trace (Notification ref text blocks);; slack_post webhook_url text blocks in
    if bool_decide (seen = "pending") || bool_decide (seen = "queued")
       || bool_decide (seen = "running") then
      post (fstr [":hourglass_flowing_sand: `"; Str.of_Z ref; "` → *"; seen;
                  "* / Elapsed "; Str.of_Z el_min; " min"; nl;
                  "<"; link; "|Open submission>"]) None
    else if bool_decide (seen = "complete") then
      let score_line := score_display s in
      jst <~ lift (fmt_jst_of submit_time);
      let blocks :=
        [JObj [("type", JStr "section");
               ("text", mrkdwn ":white_check_mark: *Kaggle Submission Complete*")];
         JObj [("type", JStr "section");
               ("fields", JArr [
                  mrkdwn (fstr ["*Ref:*"; nl; "`"; Str.of_Z ref; "`"]);
                  mrkdwn (fstr ["*Elapsed (Submit→Now):*"; nl; Str.of_Z el_min; " min"]);
                  mrkdwn (fstr ["*Submitted (JST):*"; nl; jst])])];
         JObj [("type", JStr "section"); ("text", mrkdwn score_line)];
         JObj [("type", JStr "context");
               ("elements", JArr [mrkdwn (fstr ["<"; link; "|Open submission>"])])]] in
      post (fstr ["Submission complete — ref "; Str.of_Z ref]) (Some blocks)
    else if bool_decide (seen = "error") then
      let err := get_attr s ["_error_description"; "errorDescription"] (VStr "(no detail)") in
      post (fstr [":x: `"; Str.of_Z ref; "` → *error* / Elapsed "; Str.of_Z el_min;
                  " min"; nl; "```"; py_str err; "```"; nl;
                  "<"; link; "|Open submission>"]) None
    else
      post (fstr [":information_source: `"; Str.of_Z ref; "` → *"; seen;
                  "* / Elapsed "; Str.of_Z el_min; " min"; nl;
                  "<"; link; "|Open submission>"]) None.

  (** The report for one record: the body of the second loop. *)
Definition report_one (now_utc : Z) (s : PyObj) (track : Track) : M Track :=
    ref <~ lift (get_ref s);
    if ref =? -1 then ret track
    else
      match track !! ref with
      | None => ret track
      | Some info =>
          let seen := last_seen_status info in
          let reported := last_reported_status info in
          if bool_decide (Some seen = reported) then ret track
          else
            let submit_time := submit_time info in
            el_min <~ lift (elapsed_minutes submit_time now_utc);
            let link := submission_url s competition in
            notify s ref seen el_min link submit_time;;
            ret (<[ref := set_reported seen info]> track)
      end.

Fixpoint report_loop (now_utc : Z) (subs : list PyObj) (track : Track) : M Track :=
    match subs with
    | [] => ret track
    | s :: rest => track <~ report_one now_utc s track; report_loop now_utc rest track
    end.

Definition interval_sec : Z := interval_min * 60.

  (** One turn of the [while True] loop, given what the fetch of the
      submissions did: returned records or raised. *)
Definition cycle (fetched : Res (list PyObj)) (track : Track) : M Track :=
    match fetched with
    | Raise e =>
        print (String.app "[WARN] Kaggle API error: " (exn_str e));;
        sleep interval_sec;;
        ret track
    | Ok subs =>
        track <~ track_loop subs track;
        now_utc <~ now;
        track <~ report_loop now_utc subs track;
        sleep interval_sec;;
        ret track
    end.

  (** The first turns of the loop, one per fetch of [feeds]. *)
Fixpoint cycles (feeds : list (Res (list PyObj))) (track : Track) : M Track :=
    match feeds with
    | [] => ret track
    | fetched :: rest => track <~ cycle fetched track; cycles rest track
    end.

  (** [run_watcher], up to the end of the turns that [feeds] describes.  The
    authentication against the API, which precedes the loop, and the
    interrupt that ends it are not modelled. *)
Definition run_watcher (feeds : list (Res (list PyObj))) : M Track :=
    if interval_min <? 1 then raise (ValueError "--interval-min must be >= 1")
    else
      slack_post webhook_url
        (fstr [":rocket: Watcher started — *"; competition; "*"; nl;
               "Submissions: https://www.kaggle.com/competitions/"; competition;
               "/submissions"]) None;;
      cycles feeds ∅.

End Watcher.

(** ** Notions used by the properties *)

(** What [get_ref] returns: it never raises (lemma [get_ref_ok]). *)
Definition ref_of (s : PyObj) : Z :=
  let r := get_attr s ["_ref"; "ref"] VNone in
  match py_int r with
  | Ok n => n
  | Raise _ =>
      let digits := Str.filter Str.isdigit (py_str r) in
      if Str.is_empty digits then -1 else Str.digits_value 0 digits
  end.

Definition is_notification (e : Event) : bool :=
  match e with Notification _ _ _ => true | _ => false end.

Definition is_notification_for (id : Z) (e : Event) : bool :=
  match e with Notification ref _ _ => ref =? id | _ => false end.

Definition is_posted (e : Event) : bool :=
  match e with Posted _ _ => true | _ => false end.

(** The notifications of a trace, and how many of them are for [id]. *)
Definition notifications (log : list Event) : list Event :=
  List.filter is_notification log.

Definition notifications_for (id : Z) (log : list Event) : nat :=
  length (List.filter (is_notification_for id) log).

(** The number of HTTP attempts of a trace. *)
Definition posts_in (log : list Event) : nat :=
  length (List.filter is_posted log).

Definition is_date (v : value) : bool :=
  match v with VDate _ => true | _ => false end.

(** The record has a datetime for its submission date, or none at all. *)
Definition date_ok (s : PyObj) : bool :=
  match get_attr s ["_date"; "date"] VNone with
  | VNone | VDate _ => true
  | _ => false
  end.

(** Every tracked entry has a datetime for its submit time. *)
Definition dated (track : Track) : Prop :=
  forall id e, track !! id = Some e -> is_date (submit_time e) = true.

(** Every tracked entry has been reported at the status last seen. *)
Definition settled (track : Track) : Prop :=
  forall id e, track !! id = Some e ->
    last_reported_status e = Some (last_seen_status e).

(** [id] is the identifier of one of the records, and is not the
    sentinel. *)
Definition hit (id : Z) (subs : list PyObj) : bool :=
  existsb (fun s => ref_of s =? id) subs && negb (id =? -1).


(** The reported status of an entry that has just been created. *)
Definition preseed (seen : string) : option string :=
  if bool_decide (seen = "complete") then Some "complete" else None.

(** The entry of a record after the tracking step, given the entry its
    identifier had before. *)
Definition tracked_entry (submit_dt : value) (seen : string) (old : option Entry) : Entry :=
  match old with
  | None => mkEntry submit_dt seen (preseed seen)
  | Some info => set_seen seen info
  end.

(** An entry once its last seen status has been reported. *)
Definition report (e : Entry) : Entry := set_reported (last_seen_status e) e.

Definition unsettled (e : Entry) : bool :=
  negb (bool_decide (Some (last_seen_status e) = last_reported_status e)).

Definition tick (w : World) : World :=
  mkWorld (S (w_ticks w)) (w_posts w) (w_log w).

(** The submit time that the tracking step takes for a record, and the
    world after it: the clock is read when the record has no date. *)
Definition submit_dt_of (clk : nat -> Z) (s : PyObj) (w : World) : value * World :=
  match get_attr s ["_date"; "date"] VNone with
  | VNone => (VDate (clk (w_ticks w)), tick w)
  | d => (d, w)
  end.

(** What a computation adds to the world: the clock is not read, [evs] is
    appended to the trace, and the HTTP attempts are those of [evs]. *)
Definition extends (w w' : World) (evs : list Event) : Prop :=
  w_ticks w' = w_ticks w /\
  w_log w' = w_log w ++ evs /\
  w_posts w' = (w_posts w + posts_in evs)%nat.

(** The status normalisation as the specification words it: any qualifier
    prefix, up to the last dot, is stripped. *)
Module Spec.

Fixpoint after_last_dot (s : string) : string :=
    match s with
    | EmptyString => EmptyString
    | String c r =>
        if Str.occurs "." s then after_last_dot r else s
    end.

Definition status_text (s : PyObj) : string :=
    let st := get_attr s ["_status"; "status"] (VStr "") in
    let name := match st with VEnum _ name => name | _ => py_str st end in
    let name_lower := Str.lower (after_last_dot name) in
    if bool_decide (name_lower = "completed") || bool_decide (name_lower = "complete")
    then "complete"
    else if bool_decide (name_lower = "uploading") then "pending"
    else name_lower.

End Spec.

(** The records of a fetch that succeeded have datetimes for their dates. *)
Definition feed_ok (fetched : Res (list PyObj)) : bool :=
  match fetched with
  | Ok subs => forallb date_ok subs
  | Raise _ => true
  end.

(** The names under which [score_display] looks for the two scores. *)
Definition public_names : list string :=
  ["_public_score"; "publicScore"; "publicScoreDisplay"; "scoreDisplay"].

Definition private_names : list string :=
  ["_private_score"; "privateScore"; "privateScoreDisplay"].

(** ** Sample inputs *)

(** A plain object: its attributes are the entries of its [__dict__]. *)
Definition obj (fields : list (string * value)) : PyObj :=
  mkObj (list_to_map fields) (list_to_map fields).

Module Sample.

  (** 2023-11-14 22:13:20, in microseconds. *)
Definition t0 : Z := 1700000000000000.

  (** A clock that advances by ten minutes at each reading. *)
Definition clock (n : nat) : Z := t0 + Z.of_nat n * 600000000.

Definition http_down (n : nat) : HttpOutcome :=
    Failure (RequestException "connection refused").

Definition w0 : World := mkWorld 0 0 [].

Definition running : PyObj :=
    obj [("ref", VInt 12345); ("status", VStr "running"); ("date", VDate t0)].




End Sample.

(** ** Further notions *)

(** [name] gives nothing in [m]: it is not a key, or its value is one of the
    sentinels. *)
Definition absent (m : gmap string value) (name : string) : bool :=
  match m !! name with
  | Some v => is_sentinel v
  | None => true
  end.


(** No character of [s] is an upper-case letter. *)
Definition no_upper (s : string) : bool :=
  Str.all (fun c => negb (Str.isupper c)) s.

(** The payload of [slack_post]: the text, and the blocks when there are
    some. *)
Definition payload (text : string) (blocks : option (list Json)) : Json :=
  match blocks with
  | Some (b :: bs) => JObj [("text", JStr text); ("blocks", JArr (b :: bs))]
  | _ => JObj [("text", JStr text)]
  end.

(** The message that announces the watcher. *)
Definition startup_text (competition : string) : string :=
  fstr [":rocket: Watcher started — *"; competition; "*"; nl;
        "Submissions: https://www.kaggle.com/competitions/"; competition;
        "/submissions"].

Definition is_slept (e : Event) : bool :=
  match e with Slept _ => true | _ => false end.

(** The sleeps of a trace. *)
Definition sleeps (log : list Event) : list Event := List.filter is_slept log.

(** Every event that [m] adds to the trace satisfies [P], whether [m]
    returns or raises. *)
Definition emits {A} (P : Event -> Prop) (m : M A) : Prop :=
  forall w, exists evs, w_log (m w).2 = w_log w ++ evs /\ Forall P evs.

(** What the watcher may do, with the webhook [url] and the period [sec]:
    notify with a text that names the submission, post to [url], print, and
    sleep for [sec] seconds. *)
Definition watcher_event (url : string) (sec : Z) (e : Event) : Prop :=
  match e with
  | Notification ref text _ => Str.occurs (Str.of_Z ref) text = true
  | Posted u _ => u = url
  | Printed _ => True
  | Slept s => s = sec
  end.

(** What the reporting pass may do: the same, without the sleep. *)
Definition reporting_event (url : string) (e : Event) : Prop :=
  match e with
  | Notification ref text _ => Str.occurs (Str.of_Z ref) text = true
  | Posted u _ => u = url
  | Printed _ => True
  | Slept _ => False
  end.

(** The first event of a run: the startup message on its way to the
    webhook, or the warning that there is no webhook. *)
Definition startup_event (webhook_url competition : string) : Event :=
  if Str.is_empty webhook_url
  then Printed (String.app "[WARN] Slack webhook not configured: " (startup_text competition))
  else Posted webhook_url (payload (startup_text competition) None).




(** [f] holds of the [2 ^ k] integers from [lo] on. *)
Fixpoint all_below (k : nat) (f : Z -> bool) (lo : Z) : bool :=
  match k with
  | O => f lo
  | S k' => all_below k' f lo && all_below k' f (lo + 2 ^ Z.of_nat k')
  end.

(** [s] is [n] decimal digits. *)
Definition is_digits (n : nat) (s : string) : bool :=
  Nat.eqb (String.length s) n && Str.all Str.isdigit s.

(** The month and the day that [Date.civil_from_days] gives for the day
    [doe] of a 400-year era are a month and a day. *)
Definition month_day_ok (doe : Z) : bool :=
  let yoe := (doe - doe / 1460 + doe / 36524 - doe / 146096) / 365 in
  let doy := doe - (365 * yoe + yoe / 4 - yoe / 100) in
  let mp := (5 * doy + 2) / 153 in
  let d := doy - (153 * mp + 2) / 5 + 1 in
  let m := if mp <? 10 then mp + 3 else mp - 9 in
  (1 <=? m) && (m <=? 12) && (1 <=? d) && (d <=? 31).

(** The year of [dt_utc_naive] in Japan. *)
Definition jst_year (dt_utc_naive : Z) : Z :=
  (Date.civil_from_days
     ((dt_utc_naive + 9 * 3600 * Date.us_per_second) / Date.us_per_day)).1.1.

(** The bodies of the HTTP attempts of a trace, in order. *)
Definition bodies (log : list Event) : list Json :=
  omap (fun e => match e with Posted _ body => Some body | _ => None end) log.

(** The payloads of the notifications of a trace, in order. *)
Definition payloads (log : list Event) : list Json :=
  omap (fun e => match e with
                 | Notification _ text blocks => Some (payload text blocks)
                 | _ => None
                 end) log.

(** What [m] posts is what it notifies, whether it returns or raises. *)
Definition balanced {A} (m : M A) : Prop :=
  forall w, exists evs, w_log (m w).2 = w_log w ++ evs /\ bodies evs = payloads evs.


(** * Properties *)

(** ** Strings and identifiers *)

Module StrFacts.
Import Str.

Lemma filter_all p s : all p (filter p s) = true.
Proof.
    induction s as [|c r IH]; simpl; [reflexivity|].
    destruct (p c) eqn:Hc; simpl; [rewrite Hc|]; assumption.
Qed.

Lemma isdigit_range c : isdigit c = true -> 48 <= code c <= 57.
Proof.
    unfold isdigit. intros H. apply andb_true_iff in H as [H1 H2].
    apply Z.leb_le in H1, H2. lia.
Qed.

Lemma isdigit_not_space c : isdigit c = true -> isspace c = false.
Proof.
    intros H. apply isdigit_range in H. unfold isspace.
    repeat match goal with
           | |- context [?a <=? ?b] => destruct (Z.leb_spec a b)
           end; simpl; try reflexivity; lia.
Qed.

Lemma isdigit_not_char c d :
    isdigit c = true -> isdigit d = false -> Ascii.eqb c d = false.
Proof.
    intros Hc Hd. destruct (Ascii.eqb_spec c d) as [->|]; congruence.
Qed.

Lemma lstrip_digits s : all isdigit s = true -> lstrip s = s.
Proof.
    destruct s as [|c r]; simpl; [reflexivity|].
    intros H. apply andb_true_iff in H as [Hc _].
    rewrite (isdigit_not_space c Hc). reflexivity.
Qed.

Lemma rstrip_digits s : all isdigit s = true -> rstrip s = s.
Proof.
    induction s as [|c r IH]; simpl; [reflexivity|].
    intros H. apply andb_true_iff in H as [Hc Hr].
    rewrite (isdigit_not_space c Hc), (IH Hr). reflexivity.
Qed.


Lemma startswith_app p x : startswith p (String.app p x) = true.
Proof.
    induction p as [|c r IH]; simpl; [reflexivity|].
    rewrite Ascii.eqb_refl. exact IH.
Qed.


  (** A string in which [old] does not occur is left as it is. *)
Lemma remove_absent old s : occurs old s = false -> remove old s = s.
Proof.
    unfold remove. induction s as [|c r IH]; [reflexivity|].
    intros H. cbn [occurs] in H. apply orb_false_iff in H as [H1 H2].
    cbn [remove_from]. rewrite H1, (IH H2). reflexivity.
Qed.

End StrFacts.

Lemma int_digits_all s :
  Str.all Str.isdigit s = true ->
  forall acc seen, (seen = true \/ Str.is_empty s = false) ->
  int_digits acc seen s = Some (Str.digits_value acc s).
Proof.
  induction s as [|c r IH]; simpl; intros H acc seen Hne.
  - destruct Hne as [->|]; [reflexivity|discriminate].
  - apply andb_true_iff in H as [Hc Hr]. rewrite Hc.
    apply IH; [assumption|]. left; reflexivity.
Qed.

(** [int()] of a non-empty string of digits is its decimal value. *)
Lemma int_of_str_digits s :
  Str.all Str.isdigit s = true -> Str.is_empty s = false ->
  int_of_str s = Ok (Str.digits_value 0 s).
Proof.
  intros Hall Hne. unfold int_of_str, Str.strip.
  rewrite (StrFacts.lstrip_digits s Hall), (StrFacts.rstrip_digits s Hall).
  destruct s as [|c r]; [discriminate|].
  pose proof Hall as Hc. simpl in Hc. apply andb_true_iff in Hc as [Hc _].
  rewrite (StrFacts.isdigit_not_char c "-" Hc eq_refl).
  rewrite (StrFacts.isdigit_not_char c "+" Hc eq_refl).
  rewrite (int_digits_all _ Hall); [reflexivity|]. right; reflexivity.
Qed.

Lemma get_ref_ok s : get_ref s = Ok (ref_of s).
Proof.
  unfold get_ref, ref_of.
  destruct (py_int (get_attr s ["_ref"; "ref"] VNone)) as [n|e]; [reflexivity|].
  destruct (Str.is_empty _) eqn:Hd; [reflexivity|].
  simpl. apply int_of_str_digits; [apply StrFacts.filter_all|assumption].
Qed.

(** ** Traces *)

Lemma notifications_for_app id l1 l2 :
  notifications_for id (l1 ++ l2) = (notifications_for id l1 + notifications_for id l2)%nat.
Proof. unfold notifications_for. rewrite List.filter_app, length_app. reflexivity. Qed.

Lemma notifications_app l1 l2 :
  notifications (l1 ++ l2) = notifications l1 ++ notifications l2.
Proof. apply List.filter_app. Qed.

Lemma posts_in_app l1 l2 : posts_in (l1 ++ l2) = (posts_in l1 + posts_in l2)%nat.
Proof. unfold posts_in. rewrite List.filter_app, length_app. reflexivity. Qed.

(** A trace without notifications has none for any identifier. *)
Lemma notifications_for_none id l : notifications l = [] -> notifications_for id l = 0%nat.
Proof.
  unfold notifications, notifications_for.
  induction l as [|e l IH]; simpl; [reflexivity|].
  destruct e; simpl; try discriminate; exact IH.
Qed.

(** ** Entries *)


Lemma report_idem e : report (report e) = report e.
Proof. reflexivity. Qed.

Lemma report_settled e :
  last_reported_status e = Some (last_seen_status e) -> report e = e.
Proof. destruct e as [d seen rep]; simpl. intros ->. reflexivity. Qed.

Lemma unsettled_false e :
  unsettled e = false <-> last_reported_status e = Some (last_seen_status e).
Proof.
  unfold unsettled. rewrite negb_false_iff, bool_decide_eq_true. split; congruence.
Qed.

Lemma unsettled_report e : unsettled (report e) = false.
Proof. apply unsettled_false. reflexivity. Qed.

(** ** The steps of the loop *)

Section Steps.

Variable clk : nat -> Z.
Variable http : nat -> HttpOutcome.
Variable webhook_url : string.
Variable competition : string.
Variable interval_min : Z.

Lemma track_one_eq s track w :
    track_one clk s track w =
      if ref_of s =? -1 then (Ok track, w)
      else
        (Ok (<[ref_of s := tracked_entry (submit_dt_of clk s w).1 (status_text s)
                              (track !! ref_of s)]> track),
         (submit_dt_of clk s w).2).
Proof.
    unfold track_one, bind, lift, submit_dt_of. rewrite get_ref_ok.
    destruct (ref_of s =? -1); [reflexivity|].
    destruct (get_attr s ["_date"; "date"] VNone); cbn;
      destruct (track !! ref_of s); cbn; try reflexivity;
      unfold preseed; destruct (bool_decide _); cbn;
      rewrite ?alter_insert_eq; reflexivity.
Qed.

Lemma submit_dt_of_world s w :
    w_log (submit_dt_of clk s w).2 = w_log w /\ w_posts (submit_dt_of clk s w).2 = w_posts w.
Proof.
    unfold submit_dt_of. destruct (get_attr s ["_date"; "date"] VNone); auto.
Qed.

Lemma submit_dt_of_date s w :
    date_ok s = true -> is_date (submit_dt_of clk s w).1 = true.
Proof.
    unfold date_ok, submit_dt_of.
    destruct (get_attr s ["_date"; "date"] VNone); simpl; congruence.
Qed.

Lemma dated_insert track id e :
    dated track -> is_date (submit_time e) = true -> dated (<[id := e]> track).
Proof.
    intros Ht He id' e'. rewrite lookup_insert. case_decide.
    - intros [= <-]. exact He.
    - apply Ht.
Qed.

Lemma tracked_entry_date sd st o :
    is_date sd = true ->
    (forall e, o = Some e -> is_date (submit_time e) = true) ->
    is_date (submit_time (tracked_entry sd st o)) = true.
Proof. destruct o as [e|]; simpl; auto. Qed.

  (** The tracking pass returns; it writes nothing to the trace and makes no
      HTTP attempt; it leaves alone the identifiers the records do not
      show; and it keeps the submit times datetimes. *)
Lemma track_loop_spec subs :
    forall track w,
    exists track1 w1,
      track_loop clk subs track w = (Ok track1, w1) /\
      w_log w1 = w_log w /\ w_posts w1 = w_posts w /\
      (forall id, hit id subs = false -> track1 !! id = track !! id) /\
      (forall id, is_Some (track !! id) -> is_Some (track1 !! id)) /\
      (forall id, hit id subs = true -> is_Some (track1 !! id)) /\
      (forallb date_ok subs = true -> dated track -> dated track1).
Proof.
    induction subs as [|s rest IH]; intros track w.
    - exists track, w. repeat split; auto.
      intros id H. unfold hit in H. simpl in H. discriminate.
    - cbn [track_loop]. unfold bind at 1. rewrite track_one_eq.
      destruct (ref_of s =? -1) eqn:Hs.
      + destruct (IH track w) as (t1 & w1 & Hrun & Hlog & Hposts & Hfr & Hmono & Hhit & Hd).
        exists t1, w1. rewrite Hrun. repeat split; auto.
        * intros id Hid. apply Hfr. unfold hit in *. cbn [existsb] in Hid.
          destruct (id =? -1) eqn:E; [rewrite andb_false_r; reflexivity|].
          rewrite andb_true_r in *. apply orb_false_iff in Hid as [_ Hid]. exact Hid.
        * intros id Hid. apply Hhit. unfold hit in *. cbn [existsb] in Hid.
          apply andb_true_iff in Hid as [Hid Hne]. rewrite Hne, andb_true_r.
          apply orb_true_iff in Hid as [Hid|Hid]; [|exact Hid].
          apply Z.eqb_eq in Hid. apply negb_true_iff in Hne. congruence.
        * intros Hall. cbn [forallb] in Hall. apply andb_true_iff in Hall as [_ Hall]. auto.
      + set (track' := <[ref_of s := _]> track).
        destruct (IH track' (submit_dt_of clk s w).2)
          as (t1 & w1 & Hrun & Hlog & Hposts & Hfr & Hmono & Hhit & Hd).
        destruct (submit_dt_of_world s w) as [Hl Hp].
        exists t1, w1. rewrite Hrun. repeat split; try congruence.
        * intros id Hid. unfold hit in Hid. cbn [existsb] in Hid.
          destruct (id =? -1) eqn:E.
          -- apply Z.eqb_eq in E. subst id. rewrite Hfr.
             ++ subst track'. apply lookup_insert_ne. apply Z.eqb_neq in Hs. exact Hs.
             ++ unfold hit. simpl. apply andb_false_r.
          -- rewrite andb_true_r in Hid. apply orb_false_iff in Hid as [H1 H2].
             rewrite Hfr.
             ++ subst track'. apply lookup_insert_ne. apply Z.eqb_neq in H1. exact H1.
             ++ unfold hit. rewrite H2. reflexivity.
        * intros id Hid. apply Hmono. subst track'. rewrite lookup_insert.
          case_decide; [eexists; reflexivity|exact Hid].
        * intros id Hid. unfold hit in Hid. cbn [existsb] in Hid.
          apply andb_true_iff in Hid as [Hid Hne].
          apply orb_true_iff in Hid as [Hid|Hid].
          -- apply Z.eqb_eq in Hid. apply Hmono. subst track' id.
             rewrite lookup_insert_eq. eexists; reflexivity.
          -- apply Hhit. unfold hit. rewrite Hid, Hne. reflexivity.
        * intros Hall Ht. cbn [forallb] in Hall. apply andb_true_iff in Hall as [Hs' Hall].
          apply Hd; [exact Hall|]. subst track'. apply dated_insert; [exact Ht|].
          apply tracked_entry_date; [apply submit_dt_of_date; exact Hs'|].
          intros e He. exact (Ht _ _ He).
Qed.

End Steps.

Ltac solve_extends :=
  unfold extends; cbn [w_ticks w_log w_posts posts_in notifications List.filter
                       is_posted is_notification length];
  repeat split; try lia; try (rewrite <- app_assoc; reflexivity);
  try reflexivity.

Lemma extends_refl w : extends w w [].
Proof. unfold extends. rewrite app_nil_r. cbn. auto with arith. Qed.

Lemma extends_trans w1 w2 w3 evs1 evs2 :
  extends w1 w2 evs1 -> extends w2 w3 evs2 -> extends w1 w3 (evs1 ++ evs2).
Proof.
  unfold extends. intros (Ht1 & Hl1 & Hp1) (Ht2 & Hl2 & Hp2).
  rewrite Ht2, Ht1, Hl2, Hl1, Hp2, Hp1, posts_in_app, app_assoc.
  repeat split; auto with arith.
Qed.

Lemma notifications_for_cons_notification id ref text blocks evs :
  notifications evs = [] ->
  notifications_for id (Notification ref text blocks :: evs)
  = if ref =? id then 1%nat else 0%nat.
Proof.
  intros H. change (Notification ref text blocks :: evs)
    with ([Notification ref text blocks] ++ evs).
  rewrite notifications_for_app, (notifications_for_none id evs H).
  unfold notifications_for. cbn. destruct (ref =? id); reflexivity.
Qed.


Section Reporting.

Variable webhook_url : string.
Variable competition : string.

  (** [slack_post] returns, whatever the HTTP attempt does; it makes one
      attempt when a webhook is configured and none otherwise. *)
Lemma slack_post_spec http url text blocks w :
    exists evs w',
      slack_post http url text blocks w = (Ok tt, w') /\
      extends w w' evs /\
      notifications evs = [] /\
      posts_in evs = (if Str.is_empty url then 0 else 1)%nat.
Proof.
    unfold slack_post. destruct (Str.is_empty url) eqn:Hu.
    - eexists [Printed _], _. unfold print, trace. split; [reflexivity|].
      solve_extends.
    - set (payload := match blocks with Some (b :: bs) => _ | _ => _ end).
      unfold try_except, bind, requests_post, raise_for_status.
      destruct (http (w_posts w)) as [status reason|e].
      + destruct ((400 <=? status) && (status <? 500)).
        * eexists [Posted url payload; Printed _], _. unfold raise, print, trace.
          split; [reflexivity|]. solve_extends.
        * destruct ((500 <=? status) && (status <? 600)).
          -- eexists [Posted url payload; Printed _], _. unfold raise, print, trace.
             split; [reflexivity|]. solve_extends.
          -- eexists [Posted url payload], _. unfold ret.
             split; [reflexivity|]. solve_extends.
      + eexists [Posted url payload; Printed _], _. unfold print, trace.
        split; [reflexivity|]. solve_extends.
Qed.

  (** A notification and its delivery attempt. *)
Lemma post_spec http ref text blocks w :
    exists evs w',
      bind (trace (Notification ref text blocks))
           (fun _ => slack_post http webhook_url text blocks) w = (Ok tt, w') /\
      extends w w' (Notification ref text blocks :: evs) /\
      notifications evs = [] /\
      posts_in evs = (if Str.is_empty webhook_url then 0 else 1)%nat.
Proof.
    unfold bind, trace.
    destruct (slack_post_spec http webhook_url text blocks
                (mkWorld (w_ticks w) (w_posts w) (w_log w ++ [Notification ref text blocks])))
      as (evs & w' & Hrun & (Ht & Hl & Hp) & Hn & Hposts).
    exists evs, w'. rewrite Hrun. repeat split; auto.
    rewrite Hl. cbn. rewrite <- app_assoc. reflexivity.
Qed.

  (** What [notify] says is fixed before any delivery is attempted. *)
Lemma notify_spec s ref seen el_min link t :
    exists text blocks, forall http w,
    exists evs w',
      notify http webhook_url s ref seen el_min link (VDate t) w = (Ok tt, w') /\
      extends w w' (Notification ref text blocks :: evs) /\
      notifications evs = [] /\
      posts_in evs = (if Str.is_empty webhook_url then 0 else 1)%nat.
Proof.
    unfold notify.
    destruct (bool_decide (seen = "pending") || bool_decide (seen = "queued")
              || bool_decide (seen = "running")).
    { eexists _, _. intros http w. apply post_spec. }
    destruct (bool_decide (seen = "complete")).
    { unfold bind at 1, lift, fmt_jst_of. eexists _, _. intros http w. apply post_spec. }
    destruct (bool_decide (seen = "error")); eexists _, _; intros http w; apply post_spec.
Qed.

  (** The body of the reporting loop: it reports the entry of its record if
      the entry is unsettled, with one notification, and touches nothing
      else.  The new state and the notifications [ns] do not depend on what
      the HTTP attempts do. *)
Lemma report_one_spec now_utc s track :
    dated track ->
    exists track' ns,
      dated track' /\
      (forall id, track' !! id
                  = if (ref_of s =? id) && negb (id =? -1)
                    then report <$> track !! id else track !! id) /\
      (forall id, notifications_for id ns
                  = if (ref_of s =? id) && negb (id =? -1)
                    then match track !! id with
                         | Some e => if unsettled e then 1%nat else 0%nat
                         | None => 0%nat
                         end
                    else 0%nat) /\
      forall http w, exists w' evs,
        report_one http webhook_url competition now_utc s track w = (Ok track', w') /\
        extends w w' evs /\
        notifications evs = ns /\
        posts_in evs = (if Str.is_empty webhook_url then 0 else length ns)%nat.
Proof.
    intros Hd. unfold report_one.
    assert (Hquiet : forall (track0 : Track) (http : nat -> HttpOutcome) (w : World),
      exists w' evs, ret track0 w = (Ok track0, w') /\ extends w w' evs /\
        notifications evs = [] /\
        posts_in evs = (if Str.is_empty webhook_url then 0 else length (@nil Event))%nat).
    { intros track0 http w. exists w, []. repeat split; try apply extends_refl.
      destruct (Str.is_empty webhook_url); reflexivity. }
    destruct (ref_of s =? -1) eqn:Hs.
    { exists track, []. split; [exact Hd|]. split; [|split].
      - intros id. destruct (ref_of s =? id) eqn:E; [|reflexivity].
        apply Z.eqb_eq in E. rewrite <- E, Hs. reflexivity.
      - intros id. destruct (ref_of s =? id) eqn:E; [|reflexivity].
        apply Z.eqb_eq in E. rewrite <- E, Hs. reflexivity.
      - intros http w. unfold bind at 1, lift. rewrite get_ref_ok, Hs.
        apply Hquiet; exact http. }
    destruct (track !! ref_of s) as [info|] eqn:Hinfo.
    2:{ exists track, []. split; [exact Hd|]. split; [|split].
        - intros id. destruct (ref_of s =? id) eqn:E; [|reflexivity].
          apply Z.eqb_eq in E. subst id. rewrite Hinfo. destruct (negb _); reflexivity.
        - intros id. destruct (ref_of s =? id) eqn:E; [|reflexivity].
          apply Z.eqb_eq in E. subst id. rewrite Hinfo. destruct (negb _); reflexivity.
        - intros http w. unfold bind at 1, lift. rewrite get_ref_ok, Hs, Hinfo.
          apply Hquiet; exact http. }
    destruct (bool_decide (Some (last_seen_status info) = last_reported_status info)) eqn:Hset.
    { pose proof Hset as Hb. apply bool_decide_eq_true in Hset.
      exists track, []. split; [exact Hd|]. split; [|split].
      - intros id. destruct (ref_of s =? id) eqn:E; [|reflexivity].
        apply Z.eqb_eq in E. subst id. rewrite Hinfo. cbn.
        rewrite report_settled by congruence. destruct (negb _); reflexivity.
      - intros id. destruct (ref_of s =? id) eqn:E; [|reflexivity].
        apply Z.eqb_eq in E. subst id. rewrite Hinfo.
        replace (unsettled info) with false; [destruct (negb _); reflexivity|].
        symmetry. apply unsettled_false. congruence.
      - intros http w. unfold bind at 1, lift. rewrite get_ref_ok, Hs, Hinfo.
        rewrite Hb.
        apply Hquiet; exact http. }
    pose proof (Hd _ _ Hinfo) as Hdate.
    destruct (submit_time info) as [| | | |t] eqn:Hst; try discriminate.
    destruct (notify_spec s (ref_of s) (last_seen_status info)
                (Z.max 1 (floordiv (total_seconds (now_utc - t)) (inject_Z 60)))
                (submission_url s competition) t)
      as (text & blocks & Hnotify).
    exists (<[ref_of s := set_reported (last_seen_status info) info]> track),
      [Notification (ref_of s) text blocks].
    split; [|split; [|split]].
    - apply dated_insert; [exact Hd|]. cbn. rewrite Hst. reflexivity.
    - intros id. rewrite lookup_insert. destruct (decide (ref_of s = id)) as [E|E].
      + subst id. rewrite Z.eqb_refl, Hs, Hinfo. reflexivity.
      + apply Z.eqb_neq in E. rewrite E. reflexivity.
    - intros id. rewrite notifications_for_cons_notification by reflexivity.
      destruct (ref_of s =? id) eqn:E; [|reflexivity].
      apply Z.eqb_eq in E. subst id. rewrite Hs, Hinfo. cbn.
      unfold unsettled. rewrite Hset. reflexivity.
    - intros http w. unfold bind at 1, lift. rewrite get_ref_ok, Hs, Hinfo, Hset, Hst.
      unfold bind at 1, elapsed_minutes. unfold bind.
      destruct (Hnotify http w) as (evs & w' & Hrun & Hext & Hn & Hposts).
      rewrite Hrun. unfold ret.
      exists w', (Notification (ref_of s) text blocks :: evs).
      split; [reflexivity|]. split; [exact Hext|]. split.
      + change (Notification (ref_of s) text blocks :: evs)
          with ([Notification (ref_of s) text blocks] ++ evs).
        rewrite notifications_app, Hn. reflexivity.
      + change (Notification (ref_of s) text blocks :: evs)
          with ([Notification (ref_of s) text blocks] ++ evs).
        rewrite posts_in_app, Hposts.
        destruct (Str.is_empty webhook_url); reflexivity.
Qed.

Lemma hit_cons id s rest :
    hit id (s :: rest) = ((ref_of s =? id) && negb (id =? -1)) || hit id rest.
Proof.
    unfold hit. cbn [existsb].
    destruct (ref_of s =? id), (existsb _ rest), (negb _); reflexivity.
Qed.

  (** The reporting pass: every identifier that the records show is
      reported, with one notification if its entry was unsettled and none
      otherwise; the others are left alone.  Nothing of this depends on what
      the HTTP attempts do. *)
Lemma report_loop_spec now_utc subs :
    forall track,
    dated track ->
    exists track' ns,
      dated track' /\
      (forall id, track' !! id
                  = if hit id subs then report <$> track !! id else track !! id) /\
      (forall id, notifications_for id ns
                  = if hit id subs
                    then match track !! id with
                         | Some e => if unsettled e then 1%nat else 0%nat
                         | None => 0%nat
                         end
                    else 0%nat) /\
      forall http w, exists w' evs,
        report_loop http webhook_url competition now_utc subs track w = (Ok track', w') /\
        extends w w' evs /\
        notifications evs = ns /\
        posts_in evs = (if Str.is_empty webhook_url then 0 else length ns)%nat.
Proof.
    induction subs as [|s rest IH]; intros track Hd.
    - exists track, []. repeat split; auto.
      intros http w. exists w, []. repeat split; try apply extends_refl.
      destruct (Str.is_empty webhook_url); reflexivity.
    - destruct (report_one_spec now_utc s track Hd)
        as (t1 & ns1 & Hd1 & Hl1 & Hn1 & Hrun1).
      destruct (IH t1 Hd1) as (t2 & ns2 & Hd2 & Hl2 & Hn2 & Hrun2).
      exists t2, (ns1 ++ ns2). split; [exact Hd2|]. split; [|split].
      + intros id. rewrite Hl2, Hl1, hit_cons.
        destruct ((ref_of s =? id) && negb (id =? -1)), (hit id rest); cbn;
          try reflexivity.
        destruct (track !! id); reflexivity.
      + intros id. rewrite notifications_for_app, Hn1, Hn2, Hl1, hit_cons.
        destruct ((ref_of s =? id) && negb (id =? -1)), (hit id rest); cbn;
          try reflexivity.
        * destruct (track !! id) as [e|]; cbn; [|reflexivity].
          rewrite unsettled_report. apply Nat.add_0_r.
        * apply Nat.add_0_r.
      + intros http w. cbn [report_loop]. unfold bind at 1.
        destruct (Hrun1 http w) as (w1 & evs1 & Hr1 & Hext1 & Hns1 & Hp1).
        rewrite Hr1.
        destruct (Hrun2 http w1) as (w2 & evs2 & Hr2 & Hext2 & Hns2 & Hp2).
        rewrite Hr2. exists w2, (evs1 ++ evs2).
        split; [reflexivity|]. split; [eapply extends_trans; eassumption|]. split.
        * rewrite notifications_app, Hns1, Hns2. reflexivity.
        * rewrite posts_in_app, length_app, Hp1, Hp2.
          destruct (Str.is_empty webhook_url); reflexivity.
Qed.

End Reporting.

Section Passes.

Variable clk : nat -> Z.
Variable webhook_url : string.
Variable competition : string.
Variable interval_min : Z.


  (** One turn of the loop after a fetch that succeeded: the state after it
      and its notifications are fixed by the records, the state before and
      the clock, whatever the HTTP attempts do. *)
Lemma cycle_ok_spec subs track w :
    dated track -> forallb date_ok subs = true ->
    exists track1 w1 track2 ns,
      track_loop clk subs track w = (Ok track1, w1) /\
      dated track2 /\
      (forall id, hit id subs = false -> track1 !! id = track !! id) /\
      (forall id, hit id subs = true -> is_Some (track1 !! id)) /\
      (forall id, track2 !! id
                  = if hit id subs then report <$> track1 !! id else track1 !! id) /\
      (forall id, notifications_for id ns
                  = if hit id subs
                    then match track1 !! id with
                         | Some e => if unsettled e then 1%nat else 0%nat
                         | None => 0%nat
                         end
                    else 0%nat) /\
      forall http, exists w2 evs,
        cycle clk http webhook_url competition interval_min (Ok subs) track w
        = (Ok track2, w2) /\
        w_log w2 = w_log w ++ evs /\
        notifications evs = ns /\
        posts_in evs = (if Str.is_empty webhook_url then 0 else length ns)%nat.
Proof.
    intros Hd Hdates.
    destruct (track_loop_spec clk subs track w)
      as (t1 & w1 & Hrun1 & Hlog1 & Hposts1 & Hfr & Hmono & Hhit & Hd1).
    specialize (Hd1 Hdates Hd).
    destruct (report_loop_spec webhook_url competition (clk (w_ticks w1)) subs t1 Hd1)
      as (t2 & ns & Hd2 & Hl & Hn & Hrun2).
    exists t1, w1, t2, ns. repeat split; auto.
    intros http.
    destruct (Hrun2 http (mkWorld (S (w_ticks w1)) (w_posts w1) (w_log w1)))
      as (w2 & evs & Hr2 & (Ht2 & Hlog2 & Hposts2) & Hns & Hp).
    exists (mkWorld (w_ticks w2) (w_posts w2) (w_log w2 ++ [Slept (interval_sec interval_min)])),
      (evs ++ [Slept (interval_sec interval_min)]).
    split.
    { unfold cycle. unfold bind at 1. rewrite Hrun1.
      unfold bind at 1, now. unfold bind at 1. rewrite Hr2.
      unfold bind, sleep, trace, ret. reflexivity. }
    split.
    { cbn [w_log]. rewrite Hlog2. cbn [w_log]. rewrite Hlog1, app_assoc. reflexivity. }
    split.
    { rewrite notifications_app, Hns. cbn. apply app_nil_r. }
    rewrite posts_in_app, Hp. cbn. apply Nat.add_0_r.
Qed.

  (** A settled state stays settled through a turn. *)
Lemma settled_after subs (track track1 track2 : Track) :
    settled track ->
    (forall id, hit id subs = false -> track1 !! id = track !! id) ->
    (forall id, track2 !! id
                = if hit id subs then report <$> track1 !! id else track1 !! id) ->
    settled track2.
Proof.
    intros Hs Hfr Hl id e He. rewrite Hl in He.
    destruct (hit id subs) eqn:Hh.
    - destruct (track1 !! id) as [e1|]; [|discriminate].
      injection He as <-. reflexivity.
    - rewrite (Hfr id Hh) in He. exact (Hs id e He).
Qed.






End Passes.

(** * The claims *)

Lemma settled_empty : settled ∅.
Proof. intros id e H. rewrite lookup_empty in H. discriminate. Qed.

Lemma dated_empty : dated ∅.
Proof. intros id e H. rewrite lookup_empty in H. discriminate. Qed.

(** The loop keeps its state settled and its submit times datetimes, through
    fetches that fail and fetches that succeed. *)
Lemma cycles_settled clk http webhook_url competition interval_min
    (feeds : list (Res (list PyObj))) :
  forall (track : Track) (w : World),
  settled track -> dated track -> forallb feed_ok feeds = true ->
  exists track' w',
    cycles clk http webhook_url competition interval_min feeds track w = (Ok track', w') /\
    settled track' /\ dated track'.
Proof.
  induction feeds as [|fetched rest IH]; intros track w Hs Hd Hall.
  - exists track, w. repeat split; assumption.
  - cbn [forallb] in Hall. apply andb_true_iff in Hall as [Hf Hrest].
    cbn [cycles]. unfold bind at 1. destruct fetched as [subs|e].
    + destruct (cycle_ok_spec clk webhook_url competition interval_min subs track w Hd Hf)
        as (t1 & w1 & t2 & ns & _ & Hd2 & Hfr & _ & Hl & _ & Hcycle).
      destruct (Hcycle http) as (w2 & evs & Hrun & _).
      rewrite Hrun. apply IH; [|exact Hd2|exact Hrest].
      eapply settled_after; eassumption.
    + apply IH; assumption.
Qed.

(** Every state that the watcher reaches is settled: the hypothesis of the
    claims below on the state before a cycle. *)
Lemma run_watcher_settled clk http webhook_url competition interval_min
    (feeds : list (Res (list PyObj))) (w : World) :
  1 <= interval_min -> forallb feed_ok feeds = true ->
  exists track' w',
    run_watcher clk http webhook_url competition interval_min feeds w = (Ok track', w') /\
    settled track' /\ dated track'.
Proof.
  intros Hi Hall. unfold run_watcher.
  replace (interval_min <? 1) with false by (symmetry; apply Z.ltb_ge; exact Hi).
  unfold bind at 1.
  destruct (slack_post_spec http webhook_url
              (fstr [":rocket: Watcher started — *"; competition; "*"; nl;
                     "Submissions: https://www.kaggle.com/competitions/"; competition;
                     "/submissions"]) None w) as (evs & w1 & Hrun & _).
  rewrite Hrun. apply cycles_settled; [exact settled_empty|exact dated_empty|exact Hall].
Qed.

(** C3. When the fetch of a cycle raises, the rest of the cycle is skipped:
    the warning is printed, the loop sleeps, and [track] is returned as it
    was; no entry is created, removed or changed, the clock is not read, no
    notification is emitted and no HTTP attempt is made. *)
Theorem fetch_failure_leaves_track clk http webhook_url competition interval_min
    (e : exn) (track : Track) (w : World) :
  exists w' evs,
    cycle clk http webhook_url competition interval_min (Raise e) track w = (Ok track, w') /\
    w_log w' = w_log w ++ evs /\
    evs = [Printed (String.app "[WARN] Kaggle API error: " (exn_str e));
           Slept (interval_sec interval_min)] /\
    w_ticks w' = w_ticks w /\ w_posts w' = w_posts w /\
    notifications evs = [] /\ posts_in evs = 0%nat /\
    forall id, notifications_for id evs = 0%nat.
Proof.
  eexists _, _. split; [reflexivity|]. cbn [w_log w_ticks w_posts].
  split; [rewrite <- app_assoc; reflexivity|].
  repeat split.
Qed.













(** ** The score line *)

Lemma first_present_absent (m : gmap string value) names :
  (forall name v, In name names -> m !! name = Some v -> is_sentinel v = true) ->
  first_present m names = None.
Proof.
  induction names as [|name rest IH]; intros H; [reflexivity|].
  cbn [first_present]. destruct (m !! name) as [v|] eqn:Hv.
  - rewrite (H name v (or_introl eq_refl) Hv). apply IH.
    intros n' v' Hin. apply H. right. exact Hin.
  - apply IH. intros n' v' Hin. apply H. right. exact Hin.
Qed.

(** C6. The score line is [Public LB: *0.812* / Private LB: *0.799*] for the
    public score 0.812 and the private score 0.799, [Public LB: *0.812*]
    with the public score only, and [Public LB: (N/A)] with neither; a field
    that holds [None], the empty string, a hyphen or an em-dash counts as
    absent. *)
Theorem score_display_cases :
  (forall s,
     get_attr s public_names VNone = VStr "0.812" ->
     get_attr s private_names VNone = VStr "0.799" ->
     score_display s = "Public LB: *0.812* / Private LB: *0.799*") /\
  (forall s,
     get_attr s public_names VNone = VStr "0.812" ->
     get_attr s private_names VNone = VNone ->
     score_display s = "Public LB: *0.812*") /\
  (forall s,
     get_attr s public_names VNone = VNone ->
     get_attr s private_names VNone = VNone ->
     score_display s = "Public LB: (N/A)") /\
  (forall v, is_sentinel v = true
             <-> v = VNone \/ v = VStr "" \/ v = VStr "-" \/ v = VStr "—") /\
  (forall s names default,
     (forall name v, In name names ->
        py_attrs s !! name = Some v \/ py_dict s !! name = Some v ->
        is_sentinel v = true) ->
     get_attr s names default = default) /\
  score_display (obj [("publicScore", VStr "0.812"); ("privateScore", VStr "0.799")])
  = "Public LB: *0.812* / Private LB: *0.799*" /\
  score_display (obj [("publicScore", VStr "0.812")]) = "Public LB: *0.812*" /\
  score_display (obj [("publicScore", VStr "0.812"); ("privateScore", VStr "")])
  = "Public LB: *0.812*" /\
  score_display (obj [("publicScore", VStr "0.812"); ("privateScore", VStr "-")])
  = "Public LB: *0.812*" /\
  score_display (obj [("publicScore", VStr "0.812"); ("privateScore", VStr "—")])
  = "Public LB: *0.812*" /\
  score_display (obj [("publicScore", VStr "0.812"); ("privateScore", VNone)])
  = "Public LB: *0.812*" /\
  score_display (obj [("publicScore", VNone); ("privateScore", VStr "—");
                      ("scoreDisplay", VStr "-"); ("_public_score", VStr "")])
  = "Public LB: (N/A)" /\
  score_display (obj []) = "Public LB: (N/A)".
Proof.
  split. { intros s Hp Hq. unfold score_display. fold public_names private_names.
           rewrite Hp, Hq. reflexivity. }
  split. { intros s Hp Hq. unfold score_display. fold public_names private_names.
           rewrite Hp, Hq. reflexivity. }
  split. { intros s Hp Hq. unfold score_display. fold public_names private_names.
           rewrite Hp, Hq. reflexivity. }
  split.
  { intros v. split.
    - destruct v as [|t| | |]; cbn; try discriminate; auto.
      intros H. apply orb_true_iff in H as [H|H].
      + apply orb_true_iff in H as [H|H]; apply bool_decide_eq_true in H; subst; auto.
      + apply bool_decide_eq_true in H; subst; auto.
    - intros [-> | [-> | [-> | ->]]]; reflexivity. }
  split.
  { intros s names default H. unfold get_attr.
    rewrite first_present_absent by (intros n v Hin Hv; apply (H n v Hin); auto).
    rewrite first_present_absent by (intros n v Hin Hv; apply (H n v Hin); auto).
    reflexivity. }
  repeat split; vm_compute; reflexivity.
Qed.










(** * Further properties *)

(** ** Attributes of a record *)

Lemma first_present_stored m names v :
  first_present m names = Some v ->
  is_sentinel v = false /\ exists name, In name names /\ m !! name = Some v.
Proof.
  induction names as [|name rest IH]; cbn [first_present]; [discriminate|].
  destruct (m !! name) as [u|] eqn:Hu.
  - destruct (is_sentinel u) eqn:Hs.
    + intros H. destruct (IH H) as (Hv & n & Hin & Hn).
      split; [exact Hv|]. exists n. split; [right; exact Hin|exact Hn].
    + intros [= <-]. split; [exact Hs|]. exists name. split; [left; reflexivity|exact Hu].
  - intros H. destruct (IH H) as (Hv & n & Hin & Hn).
    split; [exact Hv|]. exists n. split; [right; exact Hin|exact Hn].
Qed.

Lemma first_present_skip m before name after :
  absent m name = true ->
  first_present m (before ++ name :: after) = first_present m (before ++ after).
Proof.
  intros Ha. induction before as [|b before IH]; cbn [app first_present].
  - unfold absent in Ha. destruct (m !! name) as [v|]; [rewrite Ha|]; reflexivity.
  - rewrite IH. reflexivity.
Qed.

Lemma first_present_first m before name after v :
  (forall n, In n before -> absent m n = true) ->
  m !! name = Some v -> is_sentinel v = false ->
  first_present m (before ++ name :: after) = Some v.
Proof.
  intros Hb Hv Hs. induction before as [|b before IH]; cbn [app first_present].
  - rewrite Hv, Hs. reflexivity.
  - pose proof (Hb b (or_introl eq_refl)) as Hab. unfold absent in Hab.
    destruct (m !! b) as [u|]; [rewrite Hab|];
      apply IH; intros n Hn; apply Hb; right; exact Hn.
Qed.

(** X1. What [get_attr] returns is the default, or a value that is no
    sentinel ([None], the empty string, a hyphen, an em-dash) and that the
    record holds under one of the names, as an attribute or in its
    [__dict__]. *)
Theorem get_attr_default_or_stored (s : PyObj) (names : list string) (d : value) :
  get_attr s names d = d \/
  (is_sentinel (get_attr s names d) = false /\
   exists name, In name names /\
     (py_attrs s !! name = Some (get_attr s names d) \/
      py_dict s !! name = Some (get_attr s names d))).
Proof.
  unfold get_attr.
  destruct (first_present (py_attrs s) names) as [v|] eqn:Ha.
  - right. destruct (first_present_stored _ _ _ Ha) as (Hs & n & Hin & Hn).
    split; [exact Hs|]. exists n. split; [exact Hin|left; exact Hn].
  - destruct (first_present (py_dict s) names) as [v|] eqn:Hd.
    + right. destruct (first_present_stored _ _ _ Hd) as (Hs & n & Hin & Hn).
      split; [exact Hs|]. exists n. split; [exact Hin|right; exact Hn].
    + left. reflexivity.
Qed.

(** X2. A name under which the record holds nothing, or holds a sentinel,
    is as good as not listed: [get_attr] goes on to the names after it. *)
Theorem get_attr_ignores_absent (s : PyObj) (before : list string) (name : string)
    (after : list string) (d : value) :
  absent (py_attrs s) name = true -> absent (py_dict s) name = true ->
  get_attr s (before ++ name :: after) d = get_attr s (before ++ after) d.
Proof.
  intros Ha Hd. unfold get_attr.
  rewrite (first_present_skip _ before name after Ha),
          (first_present_skip _ before name after Hd).
  reflexivity.
Qed.

Lemma get_attr_ignores_absent_witness :
  absent (py_attrs (obj [("_ref", VStr "-"); ("ref", VInt 7)])) "_ref" = true /\
  absent (py_dict (obj [("_ref", VStr "-"); ("ref", VInt 7)])) "_ref" = true /\
  get_attr (obj [("_ref", VStr "-"); ("ref", VInt 7)]) ([] ++ "_ref" :: ["ref"]) VNone
  = get_attr (obj [("_ref", VStr "-"); ("ref", VInt 7)]) ([] ++ ["ref"]) VNone.
Proof.
  split; [reflexivity|]. split; [reflexivity|].
  apply (get_attr_ignores_absent (obj [("_ref", VStr "-"); ("ref", VInt 7)])
           [] "_ref" ["ref"] VNone); reflexivity.
Defined.

(** X3. Attributes come before the [__dict__], and among attributes the
    name listed first: the first name with an attribute that is present
    wins, whatever the [__dict__] holds under the names before it. *)
Theorem get_attr_first_attribute_wins (s : PyObj) (before : list string)
    (name : string) (after : list string) (d v : value) :
  (forall n, In n before -> absent (py_attrs s) n = true) ->
  py_attrs s !! name = Some v -> is_sentinel v = false ->
  get_attr s (before ++ name :: after) d = v.
Proof.
  intros Hb Hv Hs. unfold get_attr.
  rewrite (first_present_first _ before name after v Hb Hv Hs). reflexivity.
Qed.

Lemma get_attr_first_attribute_wins_witness :
  get_attr (mkObj {[ "ref" := VInt 7 ]} {[ "_ref" := VInt 9; "ref" := VInt 7 ]})
    (["_ref"] ++ "ref" :: []) VNone = VInt 7.
Proof.
  apply (get_attr_first_attribute_wins
           (mkObj {[ "ref" := VInt 7 ]} {[ "_ref" := VInt 9; "ref" := VInt 7 ]})
           ["_ref"] "ref" [] VNone (VInt 7)).
  - intros n [<-|[]]. reflexivity.
  - reflexivity.
  - reflexivity.
Defined.

(** ** Identifiers *)




(** ** Status labels *)

Lemma lower_char_not_upper c : Str.isupper (Str.lower_char c) = false.
Proof.
  unfold Str.lower_char. destruct (Str.isupper c) eqn:Hc; [|exact Hc].
  unfold Str.isupper, Str.code in *.
  apply andb_true_iff in Hc as [H1 H2]. apply Z.leb_le in H1, H2.
  rewrite nat_ascii_embedding by lia.
  apply andb_false_iff. right. apply Z.leb_gt. lia.
Qed.

Lemma lower_no_upper s : no_upper (Str.lower s) = true.
Proof.
  unfold no_upper. induction s as [|c r IH]; cbn; [reflexivity|].
  rewrite lower_char_not_upper, IH. reflexivity.
Qed.

Lemma lower_fixed s : no_upper s = true -> Str.lower s = s.
Proof.
  unfold no_upper. induction s as [|c r IH]; cbn; [reflexivity|].
  intros H. apply andb_true_iff in H as [Hc Hr]. apply negb_true_iff in Hc.
  unfold Str.lower_char. rewrite Hc, (IH Hr). reflexivity.
Qed.

(** A text that begins with an upper-case letter occurs in no string
    without upper-case letters. *)
Lemma occurs_upper c old s :
  Str.isupper c = true -> no_upper s = true -> Str.occurs (String c old) s = false.
Proof.
  intros Hc. unfold no_upper. induction s as [|b r IH]; cbn [Str.all Str.occurs]; [reflexivity|].
  intros H. apply andb_true_iff in H as [Hb Hr]. apply negb_true_iff in Hb.
  rewrite (IH Hr), orb_false_r. cbn [Str.startswith].
  destruct (Ascii.eqb_spec c b) as [->|]; [congruence|reflexivity].
Qed.

(** A normalised status has no upper-case letter, and is never
    [completed] nor [uploading]. *)
Lemma status_text_label (s : PyObj) :
  no_upper (status_text s) = true /\
  status_text s <> "completed"%string /\ status_text s <> "uploading"%string.
Proof.
  unfold status_text.
  set (label := Str.lower (Str.remove "SubmissionStatus." _)).
  assert (Hl : no_upper label = true) by apply lower_no_upper.
  destruct (bool_decide (label = "completed"%string)) eqn:H1; cbn [orb].
  { split; [reflexivity|split; discriminate]. }
  destruct (bool_decide (label = "complete"%string)) eqn:H2.
  { split; [reflexivity|split; discriminate]. }
  destruct (bool_decide (label = "uploading"%string)) eqn:H3.
  { split; [reflexivity|split; discriminate]. }
  apply bool_decide_eq_false in H1, H3. split; [exact Hl|split; assumption].
Qed.

(** X5. A normalised status is in canonical form: it has no upper-case
    letter, it is never [completed] nor [uploading], and normalising it
    again gives it back (a record whose raw status is a status already
    normalised gets that same status). *)
Theorem status_text_is_canonical (s : PyObj) :
  no_upper (status_text s) = true /\
  status_text s <> "completed"%string /\ status_text s <> "uploading"%string /\
  forall s',
    get_attr s' ["_status"; "status"] (VStr "") = VStr (status_text s) ->
    status_text s' = status_text s.
Proof.
  destruct (status_text_label s) as (Hu & Hc & Hup).
  split; [exact Hu|]. split; [exact Hc|]. split; [exact Hup|].
  intros s' H. unfold status_text at 1. rewrite H. cbn [py_str].
  rewrite (StrFacts.remove_absent _ _ (occurs_upper "S" _ _ eq_refl Hu)).
  rewrite (lower_fixed _ Hu).
  rewrite (bool_decide_eq_false_2 _ Hc). cbn [orb].
  destruct (bool_decide (status_text s = "complete"%string)) eqn:H2.
  - apply bool_decide_eq_true in H2. symmetry. exact H2.
  - rewrite (bool_decide_eq_false_2 _ Hup). reflexivity.
Qed.

(** ** The score line, in general *)

Lemma of_Z_nonempty n : Str.is_empty (Str.of_Z n) = false.
Proof.
  unfold Str.of_Z, NilZero.string_of_int.
  destruct (Z.to_int n) as [d|d]; [|reflexivity].
  destruct d; reflexivity.
Qed.

Lemma app_nonempty_r a b : Str.is_empty b = false -> Str.is_empty (String.app a b) = false.
Proof. destruct a; cbn; auto. Qed.

Lemma strftime_nonempty us : Str.is_empty (Date.strftime us) = false.
Proof.
  unfold Date.strftime. destruct (Date.civil_from_days _) as [[y m] d].
  cbn [String.concat]. apply app_nonempty_r. reflexivity.
Qed.

Lemma date_str_nonempty us : Str.is_empty (Date.str us) = false.
Proof.
  unfold Date.str. destruct (_ =? 0); [apply strftime_nonempty|].
  apply app_nonempty_r. reflexivity.
Qed.

Lemma py_str_nonempty v : is_sentinel v = false -> Str.is_empty (py_str v) = false.
Proof.
  destruct v as [|s|n|cls name|us]; cbn [py_str is_sentinel].
  - discriminate.
  - destruct s; [discriminate|reflexivity].
  - intros _. apply of_Z_nonempty.
  - intros _. apply app_nonempty_r. reflexivity.
  - intros _. apply date_str_nonempty.
Qed.

(** With the default [None], [get_attr] returns [None] or a value that
    is no sentinel. *)
Lemma get_attr_none_or_present s names :
  get_attr s names VNone = VNone \/ is_sentinel (get_attr s names VNone) = false.
Proof.
  unfold get_attr.
  destruct (first_present (py_attrs s) names) as [v|] eqn:Ha.
  - right. exact (proj1 (first_present_stored _ _ _ Ha)).
  - destruct (first_present (py_dict s) names) as [v|] eqn:Hd.
    + right. exact (proj1 (first_present_stored _ _ _ Hd)).
    + left. reflexivity.
Qed.

(** X6. The score line by the scores that are present: both, the public
    one alone, the private one alone ([Private LB: *...*]), or none; a score
    is present when [get_attr] finds one, an integer 0 included; and the
    line is [Public LB: (N/A)] only when there is none. *)
Theorem score_display_by_presence (s : PyObj) :
  let pub := get_attr s public_names VNone in
  let prv := get_attr s private_names VNone in
  score_display s
  = (if bool_decide (pub = VNone)
     then if bool_decide (prv = VNone)
          then "Public LB: (N/A)"
          else fstr ["Private LB: *"; py_str prv; "*"]
     else if bool_decide (prv = VNone)
          then fstr ["Public LB: *"; py_str pub; "*"]
          else fstr ["Public LB: *"; py_str pub; "* / Private LB: *"; py_str prv; "*"])%string
  /\ (score_display s = "Public LB: (N/A)"%string <-> pub = VNone /\ prv = VNone).
Proof.
  intros pub prv.
  assert (Heq : score_display s
  = (if bool_decide (pub = VNone)
     then if bool_decide (prv = VNone)
          then "Public LB: (N/A)"
          else fstr ["Private LB: *"; py_str prv; "*"]
     else if bool_decide (prv = VNone)
          then fstr ["Public LB: *"; py_str pub; "*"]
          else fstr ["Public LB: *"; py_str pub; "* / Private LB: *"; py_str prv; "*"])%string).
  { assert (Hnone : forall v : value, is_sentinel v = false -> v <> VNone)
      by (intros v Hv ->; discriminate).
    destruct (get_attr_none_or_present s public_names) as [Hp|Hp]; fold pub in Hp;
    destruct (get_attr_none_or_present s private_names) as [Hq|Hq]; fold prv in Hq.
    - rewrite (bool_decide_eq_true_2 (pub = VNone) Hp),
              (bool_decide_eq_true_2 (prv = VNone) Hq).
      unfold score_display. fold public_names private_names. fold pub prv.
      rewrite Hp, Hq. reflexivity.
    - rewrite (bool_decide_eq_true_2 (pub = VNone) Hp),
              (bool_decide_eq_false_2 (prv = VNone) (Hnone _ Hq)).
      unfold score_display. fold public_names private_names. fold pub prv.
      rewrite Hp, Hq. cbn [is_sentinel andb orb negb].
      rewrite (py_str_nonempty _ Hq). reflexivity.
    - rewrite (bool_decide_eq_false_2 (pub = VNone) (Hnone _ Hp)),
              (bool_decide_eq_true_2 (prv = VNone) Hq).
      unfold score_display. fold public_names private_names. fold pub prv.
      rewrite Hq, Hp. cbn [is_sentinel andb orb negb].
      rewrite (py_str_nonempty _ Hp). reflexivity.
    - rewrite (bool_decide_eq_false_2 (pub = VNone) (Hnone _ Hp)),
              (bool_decide_eq_false_2 (prv = VNone) (Hnone _ Hq)).
      unfold score_display. fold public_names private_names. fold pub prv.
      rewrite Hp, Hq. cbn [is_sentinel andb orb negb].
      rewrite (py_str_nonempty _ Hp), (py_str_nonempty _ Hq). reflexivity. }
  split; [exact Heq|]. rewrite Heq. split.
  - destruct (bool_decide (pub = VNone)) eqn:H1, (bool_decide (prv = VNone)) eqn:H2;
      try (cbn; discriminate).
    apply bool_decide_eq_true in H1, H2. auto.
  - intros [-> ->]. reflexivity.
Qed.

(** ** Links and elapsed time *)

(** X7. The link of a submission is always on [https://www.kaggle.com]:
    the path of the record appended to the host when the record has one,
    and the page of the submissions of the competition when it has none (or
    one that is false in a test, such as the integer 0). *)
Theorem submission_url_on_kaggle (s : PyObj) (competition : string) :
  Str.startswith "https://www.kaggle.com" (submission_url s competition) = true /\
  (forall p, get_attr s ["_url"; "url"] VNone = VStr p ->
     submission_url s competition = String.app "https://www.kaggle.com" p) /\
  (truthy (get_attr s ["_url"; "url"] VNone) = false ->
     submission_url s competition
     = fstr ["https://www.kaggle.com/competitions/"; competition; "/submissions"]).
Proof.
  unfold submission_url. split; [|split].
  - destruct (truthy _).
    + apply StrFacts.startswith_app.
    + reflexivity.
  - intros p Hp. rewrite Hp.
    destruct (get_attr_none_or_present s ["_url"; "url"]) as [H|H]; rewrite Hp in H;
      [discriminate|].
    cbn [truthy py_str]. destruct p; [discriminate|reflexivity].
  - intros ->. reflexivity.
Qed.




(** ** Delivery *)

(** X9. [slack_post], event by event.  It always returns, and never reads
    the clock.  Without a webhook it makes no HTTP attempt and prints the
    warning with the text.  With one it makes exactly one attempt, to that
    URL, with the text and, when the list of blocks is not empty, the
    blocks; it prints nothing when the answer has a status outside 400..599,
    and one line [[Slack post failed] ...] when the status is in 400..599 or
    the attempt raised.  An empty list of blocks is as no blocks. *)
Theorem slack_post_trace (http : nat -> HttpOutcome) (url text : string)
    (blocks : option (list Json)) (w : World) :
  exists w',
    slack_post http url text blocks w = (Ok tt, w') /\
    w_ticks w' = w_ticks w /\
    (if Str.is_empty url
     then w_posts w' = w_posts w /\
          w_log w' = w_log w
                     ++ [Printed (String.app "[WARN] Slack webhook not configured: " text)]
     else w_posts w' = S (w_posts w) /\
          match http (w_posts w) with
          | Response status reason =>
              if (400 <=? status) && (status <? 600)
              then exists line,
                     w_log w' = w_log w
                                ++ [Posted url (payload text blocks);
                                    Printed (String.app "[Slack post failed] " line)]
              else w_log w' = w_log w ++ [Posted url (payload text blocks)]
          | Failure e =>
              w_log w' = w_log w
                         ++ [Posted url (payload text blocks);
                             Printed (String.app "[Slack post failed] " (exn_str e))]
          end) /\
    slack_post http url text (Some []) w = slack_post http url text None w.
Proof.
  unfold slack_post. fold (payload text blocks).
  destruct (Str.is_empty url) eqn:Hu.
  - eexists. unfold print, trace. split; [reflexivity|]. cbn. auto.
  - unfold try_except, bind, requests_post, raise_for_status.
    destruct (http (w_posts w)) as [status reason|e].
    + destruct (Z.leb_spec 400 status), (Z.ltb_spec status 500),
               (Z.leb_spec 500 status), (Z.ltb_spec status 600);
        try lia; cbn [andb];
        eexists; (split; [reflexivity|]); cbn [w_ticks w_posts w_log];
        (split; [reflexivity|]); (split; [|reflexivity]);
        (split; [reflexivity|]);
        rewrite <- ?app_assoc; cbn [app]; try reflexivity; eexists; reflexivity.
    + eexists. split; [reflexivity|]. cbn [w_ticks w_posts w_log].
      rewrite <- app_assoc. auto.
Qed.

(** ** What the watcher emits *)

(** The events of [slack_post] with a webhook: the attempt, and a line
    when it failed. *)
Lemma slack_post_events http url text blocks w :
  Str.is_empty url = false ->
  exists w' tail,
    slack_post http url text blocks w = (Ok tt, w') /\
    w_log w' = w_log w ++ Posted url (payload text blocks) :: tail /\
    (tail = [] \/ exists line, tail = [Printed line]).
Proof.
  intros Hu. unfold slack_post. rewrite Hu. fold (payload text blocks).
  unfold try_except, bind, requests_post, raise_for_status.
  destruct (http (w_posts w)) as [status reason|e].
  - destruct (_ && _); [|destruct (_ && _)];
      eexists _, _; (split; [reflexivity|]); cbn [w_log]; rewrite <- ?app_assoc;
      (split; [reflexivity|]); eauto.
  - eexists _, _. split; [reflexivity|]. cbn [w_log]. rewrite <- app_assoc.
    split; [reflexivity|]. eauto.
Qed.

(** Without a webhook, [slack_post] prints its warning and does nothing
    else. *)
Lemma slack_post_unconfigured http url text blocks w :
  Str.is_empty url = true ->
  slack_post http url text blocks w
  = (Ok tt, mkWorld (w_ticks w) (w_posts w)
              (w_log w ++ [Printed (String.app "[WARN] Slack webhook not configured: " text)])).
Proof. intros Hu. unfold slack_post. rewrite Hu. reflexivity. Qed.

Section Emits.

Variable P : Event -> Prop.

Lemma emits_ret {A} (a : A) : emits P (ret a).
Proof. intros w. exists []. rewrite app_nil_r. split; [reflexivity|constructor]. Qed.

Lemma emits_raise {A} (e : exn) : emits P (@raise A e).
Proof. intros w. exists []. rewrite app_nil_r. split; [reflexivity|constructor]. Qed.

Lemma emits_lift {A} (r : Res A) : emits P (lift r).
Proof. intros w. exists []. rewrite app_nil_r. split; [reflexivity|constructor]. Qed.

Lemma emits_bind {A B} (m : M A) (k : A -> M B) :
  emits P m -> (forall a, emits P (k a)) -> emits P (bind m k).
Proof.
  intros Hm Hk w. unfold bind. destruct (Hm w) as (evs1 & Hl1 & Hp1).
  destruct (m w) as [[a|e] w1]; cbn [snd] in Hl1.
  - destruct (Hk a w1) as (evs2 & Hl2 & Hp2). exists (evs1 ++ evs2).
    rewrite Hl2, Hl1, app_assoc. split; [reflexivity|].
    apply Forall_app; auto.
  - exists evs1. split; assumption.
Qed.

Lemma emits_try {A} (m : M A) (h : exn -> M A) :
  emits P m -> (forall e, emits P (h e)) -> emits P (try_except m h).
Proof.
  intros Hm Hh w. unfold try_except. destruct (Hm w) as (evs1 & Hl1 & Hp1).
  destruct (m w) as [[a|e] w1]; cbn [snd] in Hl1.
  - exists evs1. split; assumption.
  - destruct (Hh e w1) as (evs2 & Hl2 & Hp2). exists (evs1 ++ evs2).
    rewrite Hl2, Hl1, app_assoc. split; [reflexivity|].
    apply Forall_app; auto.
Qed.

Lemma emits_trace (e : Event) : P e -> emits P (trace e).
Proof. intros He w. exists [e]. split; [reflexivity|]. constructor; [exact He|constructor]. Qed.

Lemma emits_now clk : emits P (now clk).
Proof. intros w. exists []. rewrite app_nil_r. split; [reflexivity|constructor]. Qed.

Lemma emits_requests_post http url body :
  P (Posted url body) -> emits P (requests_post http url body).
Proof.
  intros He w. exists [Posted url body]. unfold requests_post.
  destruct (http (w_posts w)); (split; [reflexivity|]); constructor; auto; constructor.
Qed.

Lemma emits_raise_for_status url resp : emits P (raise_for_status url resp).
Proof.
  unfold raise_for_status. destruct resp as [status reason].
  destruct (_ && _); [apply emits_raise|].
  destruct (_ && _); [apply emits_raise|apply emits_ret].
Qed.

Lemma emits_slack_post http url text blocks :
  (forall body, P (Posted url body)) -> (forall line, P (Printed line)) ->
  emits P (slack_post http url text blocks).
Proof.
  intros Hpost Hprint. unfold slack_post.
  destruct (Str.is_empty url); [apply emits_trace, Hprint|].
  apply emits_try.
  - apply emits_bind; [apply emits_requests_post, Hpost|].
    intros resp. apply emits_raise_for_status.
  - intros e. apply emits_trace, Hprint.
Qed.

End Emits.

Lemma emits_weaken {A} (P Q : Event -> Prop) (m : M A) :
  (forall e, P e -> Q e) -> emits P m -> emits Q m.
Proof.
  intros H Hm w. destruct (Hm w) as (evs & Hl & Hp). exists evs.
  split; [exact Hl|]. eapply Forall_impl; eauto.
Qed.

(** A text that occurs in a string. *)

Lemma occurs_app_r p a x : Str.occurs p x = true -> Str.occurs p (String.app a x) = true.
Proof.
  intros H. induction a as [|c a IH]; [exact H|].
  change (Str.occurs p (String.app (String c a) x))
    with (Str.startswith p (String c (String.app a x)) || Str.occurs p (String.app a x)).
  rewrite IH. apply orb_true_r.
Qed.

Lemma occurs_prefix p b :
  Str.is_empty p = false -> Str.occurs p (String.app p b) = true.
Proof.
  intros Hp. pose proof (StrFacts.startswith_app p b) as Hs.
  destruct p as [|c p]; [discriminate|].
  change (Str.occurs (String c p) (String.app (String c p) b))
    with (Str.startswith (String c p) (String.app (String c p) b)
          || Str.occurs (String c p) (String.app p b)).
  rewrite Hs. reflexivity.
Qed.

Lemma app_empty_r (p : string) : String.app p "" = p.
Proof.
  induction p as [|c p IH]; [reflexivity|].
  change (String.app (String c p) "") with (String c (String.app p "")).
  rewrite IH. reflexivity.
Qed.

Lemma occurs_self p : Str.is_empty p = false -> Str.occurs p p = true.
Proof.
  intros Hp. pose proof (occurs_prefix p "" Hp) as H.
  rewrite app_empty_r in H. exact H.
Qed.

Lemma occurs_of_Z_mid a n b :
  Str.occurs (Str.of_Z n) (String.app a (String.app (Str.of_Z n) b)) = true.
Proof. apply occurs_app_r, occurs_prefix, of_Z_nonempty. Qed.

Lemma occurs_of_Z_end a n :
  Str.occurs (Str.of_Z n) (String.app a (Str.of_Z n)) = true.
Proof. apply occurs_app_r, occurs_self, of_Z_nonempty. Qed.

Section ReportingEvents.

Variable http : nat -> HttpOutcome.
Variable webhook_url : string.
Variable competition : string.

Lemma emits_post ref text blocks :
  Str.occurs (Str.of_Z ref) text = true ->
  emits (reporting_event webhook_url)
    (bind (trace (Notification ref text blocks))
          (fun _ => slack_post http webhook_url text blocks)).
Proof.
  intros H. apply emits_bind; [apply emits_trace; exact H|].
  intros _. apply emits_slack_post; intros; exact I || reflexivity.
Qed.

Lemma emits_notify s ref seen el_min link submit_time :
  emits (reporting_event webhook_url)
    (notify http webhook_url s ref seen el_min link submit_time).
Proof.
  unfold notify, fstr.
  destruct (_ || _).
  { apply emits_post. cbn [String.concat]. apply occurs_of_Z_mid. }
  destruct (bool_decide (seen = "complete"%string)).
  { apply emits_bind; [apply emits_lift|]. intros jst.
    apply emits_post. cbn [String.concat]. apply occurs_of_Z_end. }
  destruct (bool_decide (seen = "error"%string)).
  { apply emits_post. cbn [String.concat]. apply occurs_of_Z_mid. }
  apply emits_post. cbn [String.concat]. apply occurs_of_Z_mid.
Qed.

Lemma emits_report_one now_utc s track :
  emits (reporting_event webhook_url)
    (report_one http webhook_url competition now_utc s track).
Proof.
  unfold report_one. apply emits_bind; [apply emits_lift|]. intros ref.
  destruct (ref =? -1); [apply emits_ret|].
  destruct (track !! ref) as [info|]; [|apply emits_ret].
  destruct (bool_decide _); [apply emits_ret|].
  apply emits_bind; [apply emits_lift|]. intros el_min.
  apply emits_bind; [apply emits_notify|]. intros _. apply emits_ret.
Qed.

Lemma emits_report_loop now_utc subs :
  forall track,
  emits (reporting_event webhook_url)
    (report_loop http webhook_url competition now_utc subs track).
Proof.
  induction subs as [|s rest IH]; intros track; cbn [report_loop]; [apply emits_ret|].
  apply emits_bind; [apply emits_report_one|]. exact IH.
Qed.

End ReportingEvents.

Lemma emits_track_loop P clk subs : forall track, emits P (track_loop clk subs track).
Proof.
  intros track w.
  destruct (track_loop_spec clk subs track w) as (t1 & w1 & Hrun & Hlog & _).
  exists []. rewrite Hrun, app_nil_r. split; [exact Hlog|constructor].
Qed.

Lemma reporting_is_watcher url sec e : reporting_event url e -> watcher_event url sec e.
Proof. destruct e; cbn; auto. intros []. Qed.

Section WatcherEvents.

Variable clk : nat -> Z.
Variable http : nat -> HttpOutcome.
Variable webhook_url : string.
Variable competition : string.
Variable interval_min : Z.

Lemma emits_cycle fetched track :
  emits (watcher_event webhook_url (interval_min * 60))
    (cycle clk http webhook_url competition interval_min fetched track).
Proof.
  unfold cycle. destruct fetched as [subs|e].
  - apply emits_bind; [apply emits_track_loop|]. intros t1.
    apply emits_bind; [apply emits_now|]. intros now_utc.
    apply emits_bind.
    { eapply emits_weaken; [|apply emits_report_loop]. apply reporting_is_watcher. }
    intros t2. apply emits_bind; [|intros _; apply emits_ret].
    apply emits_trace. reflexivity.
  - apply emits_bind; [apply emits_trace; exact I|]. intros _.
    apply emits_bind; [|intros _; apply emits_ret].
    apply emits_trace. reflexivity.
Qed.

Lemma emits_cycles feeds :
  forall track,
  emits (watcher_event webhook_url (interval_min * 60))
    (cycles clk http webhook_url competition interval_min feeds track).
Proof.
  induction feeds as [|f rest IH]; intros track; cbn [cycles]; [apply emits_ret|].
  apply emits_bind; [apply emits_cycle|]. exact IH.
Qed.

End WatcherEvents.

(** X10. Whatever is fetched and whatever the sink does, and whether the
    run ends or is stopped by an exception: the watcher posts to the
    configured webhook only, each of its notifications names its submission
    in its text, and each of its sleeps is of [interval_min * 60] seconds. *)
Theorem watcher_events_are_bounded clk http webhook_url competition interval_min
    (feeds : list (Res (list PyObj))) (w : World) :
  exists evs,
    w_log (run_watcher clk http webhook_url competition interval_min feeds w).2
    = w_log w ++ evs /\
    Forall (watcher_event webhook_url (interval_min * 60)) evs.
Proof.
  revert w. change (emits (watcher_event webhook_url (interval_min * 60))
                      (run_watcher clk http webhook_url competition interval_min feeds)).
  unfold run_watcher. destruct (interval_min <? 1); [apply emits_raise|].
  apply emits_bind; [|intros _; apply emits_cycles].
  apply emits_slack_post; intros; exact I || reflexivity.
Qed.

(** ** Sleeps, and the start of a run *)

Lemma sleeps_app l1 l2 : sleeps (l1 ++ l2) = sleeps l1 ++ sleeps l2.
Proof. apply List.filter_app. Qed.

Lemma reporting_no_sleep url evs : Forall (reporting_event url) evs -> sleeps evs = [].
Proof.
  induction 1 as [|e evs He _ IH]; [reflexivity|].
  destruct e; cbn in *; try exact IH. destruct He.
Qed.

Section Sleeps.

Variable clk : nat -> Z.
Variable http : nat -> HttpOutcome.
Variable webhook_url : string.
Variable competition : string.
Variable interval_min : Z.

Lemma cycle_sleeps fetched (track : Track) w :
  exists evs,
    w_log (cycle clk http webhook_url competition interval_min fetched track w).2
    = w_log w ++ evs /\
    sleeps evs
    = match (cycle clk http webhook_url competition interval_min fetched track w).1 with
      | Ok _ => [Slept (interval_min * 60)]
      | Raise _ => []
      end.
Proof.
  unfold cycle. destruct fetched as [subs|e].
  - destruct (track_loop_spec clk subs track w) as (t1 & w1 & Hrun & Hlog & _).
    destruct (emits_report_loop http webhook_url competition (clk (w_ticks w1)) subs t1
                (mkWorld (S (w_ticks w1)) (w_posts w1) (w_log w1)))
      as (evs & Hl & Hp).
    pose proof (reporting_no_sleep _ _ Hp) as Hs.
    unfold bind, now, sleep, trace, ret, interval_sec. rewrite Hrun.
    destruct (report_loop _ _ _ _ _ _ _) as [[t2|e] w2]; cbn [fst snd w_log] in *.
    + exists (evs ++ [Slept (interval_min * 60)]).
      rewrite sleeps_app, Hs, Hl, Hlog, app_assoc. auto.
    + exists evs. rewrite Hl, Hlog. auto.
  - eexists. unfold bind, print, sleep, trace, ret, interval_sec. cbn [fst snd w_log].
    rewrite <- app_assoc. split; reflexivity.
Qed.

Lemma cycles_sleeps feeds :
  forall (track : Track) w,
  exists evs k,
    w_log (cycles clk http webhook_url competition interval_min feeds track w).2
    = w_log w ++ evs /\
    sleeps evs = repeat (Slept (interval_min * 60)) k /\
    (k <= length feeds)%nat /\
    (forall track',
       (cycles clk http webhook_url competition interval_min feeds track w).1 = Ok track' ->
       k = length feeds).
Proof.
  induction feeds as [|f rest IH]; intros track w.
  - exists [], 0%nat. rewrite app_nil_r. cbn. auto.
  - cbn [cycles]. unfold bind.
    destruct (cycle_sleeps f track w) as (evs1 & Hl1 & Hs1).
    destruct (cycle _ _ _ _ _ f track w) as [[t1|e] w1]; cbn [fst snd] in *.
    + destruct (IH t1 w1) as (evs2 & k & Hl2 & Hs2 & Hk & Hok).
      exists (evs1 ++ evs2), (S k). rewrite Hl2, Hl1, app_assoc, sleeps_app, Hs1, Hs2.
      cbn [length]. repeat split; try lia.
      intros track' H. rewrite (Hok track' H). reflexivity.
    + exists evs1, 0%nat. cbn [length repeat]. repeat split; try assumption; try lia.
      discriminate.
Qed.

End Sleeps.

(** X11. The watcher sleeps once in each turn of its loop that comes to
    its end, fetch failed or not, and nowhere else: a run of [n] turns that
    returns has slept [n] times, and a run that an exception stops has slept
    [n] times at most. *)
Theorem one_sleep_per_cycle clk http webhook_url competition interval_min
    (feeds : list (Res (list PyObj))) (w : World) :
  exists evs k,
    w_log (run_watcher clk http webhook_url competition interval_min feeds w).2
    = w_log w ++ evs /\
    sleeps evs = repeat (Slept (interval_min * 60)) k /\
    (k <= length feeds)%nat /\
    (forall track',
       (run_watcher clk http webhook_url competition interval_min feeds w).1 = Ok track' ->
       k = length feeds).
Proof.
  unfold run_watcher. destruct (interval_min <? 1).
  { exists [], 0%nat. rewrite app_nil_r. cbn. repeat split; try lia. discriminate. }
  unfold bind.
  destruct (emits_slack_post (reporting_event webhook_url) http webhook_url
              (fstr [":rocket: Watcher started — *"; competition; "*"; nl;
                     "Submissions: https://www.kaggle.com/competitions/"; competition;
                     "/submissions"]) None
              (fun _ => eq_refl) (fun _ => I) w) as (evs0 & Hl0 & Hp0).
  pose proof (reporting_no_sleep _ _ Hp0) as Hs0.
  destruct (slack_post_spec http webhook_url
              (fstr [":rocket: Watcher started — *"; competition; "*"; nl;
                     "Submissions: https://www.kaggle.com/competitions/"; competition;
                     "/submissions"]) None w) as (evs0' & w0 & Hrun & _).
  rewrite Hrun in *. cbn [snd] in Hl0.
  destruct (cycles_sleeps clk http webhook_url competition interval_min feeds ∅ w0)
    as (evs & k & Hl & Hs & Hk & Hok).
  exists (evs0 ++ evs), k. rewrite Hl, Hl0, app_assoc, sleeps_app, Hs0, Hs.
  split; [reflexivity|]. split; [reflexivity|]. split; assumption.
Qed.

(** [slack_post] begins with its attempt, or with its warning when there
    is no webhook. *)
Lemma slack_post_first http url text blocks w :
  exists w' tail,
    slack_post http url text blocks w = (Ok tt, w') /\
    w_log w'
    = w_log w
      ++ (if Str.is_empty url
          then Printed (String.app "[WARN] Slack webhook not configured: " text)
          else Posted url (payload text blocks)) :: tail.
Proof.
  destruct (Str.is_empty url) eqn:Hu.
  - rewrite (slack_post_unconfigured http url text blocks w Hu).
    eexists _, []. split; reflexivity.
  - destruct (slack_post_events http url text blocks w Hu) as (w' & tail & Hrun & Hlog & _).
    exists w', tail. split; assumption.
Qed.

(** X12. Once the period has passed its check (and the authentication,
    which is not modelled, has succeeded), the first thing the watcher does
    is to send its startup message: the first event of the run is the HTTP
    attempt that carries it, or the warning that no webhook is configured. *)
Theorem startup_message_first clk http webhook_url competition interval_min
    (feeds : list (Res (list PyObj))) (w : World) :
  1 <= interval_min ->
  exists evs,
    w_log (run_watcher clk http webhook_url competition interval_min feeds w).2
    = w_log w ++ startup_event webhook_url competition :: evs.
Proof.
  intros Hi. unfold run_watcher.
  replace (interval_min <? 1) with false by (symmetry; apply Z.ltb_ge; exact Hi).
  unfold bind at 1. fold (startup_text competition).
  destruct (slack_post_first http webhook_url (startup_text competition) None w)
    as (w0 & tail & Hrun & Hlog).
  rewrite Hrun.
  destruct (emits_cycles clk http webhook_url competition interval_min feeds ∅ w0)
    as (evs & Hl & _).
  exists (tail ++ evs). rewrite Hl, Hlog, <- app_assoc. reflexivity.
Qed.

Lemma startup_message_first_witness :
  exists evs,
    w_log (run_watcher Sample.clock Sample.http_down "https://hooks.example/T" "titanic" 10
             [Ok [Sample.running]] Sample.w0).2
    = w_log Sample.w0 ++ startup_event "https://hooks.example/T" "titanic" :: evs.
Proof.
  apply (startup_message_first Sample.clock Sample.http_down "https://hooks.example/T"
           "titanic" 10 [Ok [Sample.running]] Sample.w0).
  lia.
Defined.

(** X13. The period is checked before anything is done: the run raises
    [ValueError] with the world untouched (nothing posted, printed or slept)
    exactly when [interval_min] is below 1. *)
Theorem interval_is_checked_first clk http webhook_url competition interval_min
    (feeds : list (Res (list PyObj))) (w : World) :
  run_watcher clk http webhook_url competition interval_min feeds w
  = (Raise (ValueError "--interval-min must be >= 1"), w)
  <-> interval_min < 1.
Proof.
  split.
  - intros H. destruct (Z.lt_ge_cases interval_min 1) as [Hlt|Hge]; [exact Hlt|].
    exfalso. revert H. unfold run_watcher.
    replace (interval_min <? 1) with false by (symmetry; apply Z.ltb_ge; exact Hge).
    unfold bind at 1.
    destruct (slack_post_first http webhook_url
                (fstr [":rocket: Watcher started — *"; competition; "*"; nl;
                       "Submissions: https://www.kaggle.com/competitions/"; competition;
                       "/submissions"]) None w) as (w0 & tail & Hrun & Hlog).
    rewrite Hrun.
    destruct (emits_cycles clk http webhook_url competition interval_min feeds ∅ w0)
      as (evs & Hl & _).
    intros H. rewrite H in Hl. cbn [snd] in Hl. rewrite Hlog, <- app_assoc in Hl.
    apply (f_equal (@length Event)) in Hl. rewrite length_app in Hl. cbn in Hl. lia.
  - intros H. unfold run_watcher.
    replace (interval_min <? 1) with true by (symmetry; apply Z.ltb_lt; exact H).
    reflexivity.
Qed.

(** ** The tracked state *)









Section State.

Variable clk : nat -> Z.
Variable http : nat -> HttpOutcome.
Variable webhook_url : string.
Variable competition : string.
Variable interval_min : Z.



End State.





(** ** A date that is no datetime *)



(** ** A backlog of finished submissions *)



Section Backlog.

Variable clk : nat -> Z.
Variable http : nat -> HttpOutcome.
Variable webhook_url : string.
Variable competition : string.
Variable interval_min : Z.



End Backlog.




(** ** The format of the time *)

Lemma all_below_spec k f :
  forall lo, all_below k f lo = true ->
  forall x, lo <= x < lo + 2 ^ Z.of_nat k -> f x = true.
Proof.
  induction k as [|k IH]; intros lo H x Hx.
  - cbn in *. replace x with lo by lia. exact H.
  - cbn [all_below] in H. apply andb_true_iff in H as [H1 H2].
    rewrite Nat2Z.inj_succ, Z.pow_succ_r in Hx by lia.
    destruct (Z.lt_ge_cases x (lo + 2 ^ Z.of_nat k)).
    + apply (IH lo H1). lia.
    + apply (IH _ H2). lia.
Qed.

Lemma two_digits n : 0 <= n < 100 -> is_digits 2 (Str.zfill 2 n) = true.
Proof.
  intros Hn.
  assert (H : all_below 7 (fun n => if n <? 100 then is_digits 2 (Str.zfill 2 n) else true) 0
              = true) by (vm_cast_no_check (eq_refl true)).
  pose proof (all_below_spec 7 _ 0 H n ltac:(change (2 ^ Z.of_nat 7) with 128; lia)) as Hc.
  clear H. cbn beta in Hc.
  destruct (Z.ltb_spec n 100); try lia. exact Hc.
Qed.

Lemma four_digits n : 1000 <= n <= 9999 -> is_digits 4 (Str.zfill 4 n) = true.
Proof.
  intros Hn.
  assert (H : all_below 14
                (fun n => if (1000 <=? n) && (n <=? 9999)
                          then is_digits 4 (Str.zfill 4 n) else true) 0
              = true) by (vm_cast_no_check (eq_refl true)).
  pose proof (all_below_spec 14 _ 0 H n ltac:(change (2 ^ Z.of_nat 14) with 16384; lia)) as Hc.
  clear H. cbn beta in Hc.
  destruct (Z.leb_spec 1000 n), (Z.leb_spec n 9999); try lia. exact Hc.
Qed.

Lemma civil_month_day days :
  1 <= (Date.civil_from_days days).1.2 <= 12 /\ 1 <= (Date.civil_from_days days).2 <= 31.
Proof.
  assert (Hlo : all_below 17 month_day_ok 0 = true)
    by (vm_cast_no_check (eq_refl true)).
  assert (Hhi : all_below 14 (fun doe => if doe <? 146097 then month_day_ok doe else true)
                  131072 = true)
    by (vm_cast_no_check (eq_refl true)).
  unfold Date.civil_from_days.
  set (doe := days + 719468 - (days + 719468) / 146097 * 146097).
  assert (Hdoe : 0 <= doe < 146097).
  { subst doe. pose proof (Z.mod_pos_bound (days + 719468) 146097 ltac:(lia)) as Hmod.
    rewrite Z.mod_eq in Hmod by lia. lia. }
  assert (Hc : month_day_ok doe = true).
  { destruct (Z.lt_ge_cases doe 131072).
    - apply (all_below_spec 17 _ 0 Hlo). change (2 ^ Z.of_nat 17) with 131072. lia.
    - pose proof (all_below_spec 14 _ 131072 Hhi doe
                    ltac:(change (2 ^ Z.of_nat 14) with 16384; lia)) as Hc.
      clear Hlo Hhi. cbn beta in Hc.
      destruct (Z.ltb_spec doe 146097); try lia. exact Hc. }
  clear Hlo Hhi.
  clearbody doe. unfold month_day_ok in Hc. cbv zeta in Hc. cbv zeta. cbn [fst snd].
  apply andb_true_iff in Hc as [Hc H4]. apply andb_true_iff in Hc as [Hc H3].
  apply andb_true_iff in Hc as [H1 H2].
  apply Z.leb_le in H1, H2, H3, H4. repeat split; assumption.
Qed.

Lemma length_append (a b : string) :
  String.length (String.app a b) = (String.length a + String.length b)%nat.
Proof.
  induction a as [|c a IH]; [reflexivity|].
  change (String.app (String c a) b) with (String c (String.app a b)).
  cbn [String.length]. rewrite IH. reflexivity.
Qed.

Lemma is_digits_length n s : is_digits n s = true -> String.length s = n.
Proof. unfold is_digits. intros H. apply andb_true_iff in H as [H _]. apply Nat.eqb_eq, H. Qed.

(** X19. For a time whose year in Japan has four digits, [fmt_jst] gives
    the nineteen characters [YYYY-MM-DD HH:MM:SS]: four digits, two and
    two, then two, two and two, between the separators of the format. *)
Theorem fmt_jst_shape (dt_utc_naive : Z) :
  1000 <= jst_year dt_utc_naive <= 9999 ->
  exists Y m d H M S,
    fmt_jst dt_utc_naive = fstr [Y; "-"; m; "-"; d; " "; H; ":"; M; ":"; S] /\
    is_digits 4 Y = true /\ is_digits 2 m = true /\ is_digits 2 d = true /\
    is_digits 2 H = true /\ is_digits 2 M = true /\ is_digits 2 S = true /\
    String.length (fmt_jst dt_utc_naive) = 19%nat.
Proof.
  unfold jst_year, fmt_jst, Date.strftime. intros Hy.
  set (us := dt_utc_naive + 9 * 3600 * Date.us_per_second) in *.
  pose proof (civil_month_day (us / Date.us_per_day)) as [Hm Hd].
  destruct (Date.civil_from_days (us / Date.us_per_day)) as [[y m] d].
  cbn [fst snd] in Hy, Hm, Hd.
  set (secs := us mod Date.us_per_day / Date.us_per_second).
  assert (Hsecs : 0 <= secs < 86400).
  { subst secs. unfold Date.us_per_day, Date.us_per_second.
    pose proof (Z.mod_pos_bound us (86400 * 1000000) ltac:(lia)).
    split; [apply Z.div_pos; lia|apply Z.div_lt_upper_bound; lia]. }
  assert (HH : 0 <= secs / 3600 < 100).
  { split; [apply Z.div_pos; lia|apply Z.div_lt_upper_bound; lia]. }
  assert (HM : 0 <= secs / 60 mod 60 < 100)
    by (pose proof (Z.mod_pos_bound (secs / 60) 60 ltac:(lia)); lia).
  assert (HS : 0 <= secs mod 60 < 100)
    by (pose proof (Z.mod_pos_bound secs 60 ltac:(lia)); lia).
  pose proof (four_digits y Hy) as D1.
  pose proof (two_digits m ltac:(lia)) as D2.
  pose proof (two_digits d ltac:(lia)) as D3.
  pose proof (two_digits _ HH) as D4.
  pose proof (two_digits _ HM) as D5.
  pose proof (two_digits _ HS) as D6.
  eexists _, _, _, _, _, _. split; [reflexivity|].
  repeat (split; [assumption|]).
  cbn [String.concat]. rewrite !length_append.
  rewrite (is_digits_length _ _ D1), (is_digits_length _ _ D2), (is_digits_length _ _ D3),
          (is_digits_length _ _ D4), (is_digits_length _ _ D5), (is_digits_length _ _ D6).
  reflexivity.
Qed.

Lemma fmt_jst_shape_witness :
  fmt_jst Sample.t0 = "2023-11-15 07:13:20"%string /\
  String.length (fmt_jst Sample.t0) = 19%nat.
Proof.
  split; [reflexivity|].
  destruct (fmt_jst_shape Sample.t0) as (Y & m & d & H & M & S & _ & _ & _ & _ & _ & _ & _ & Hlen).
  - vm_compute. split; discriminate.
  - exact Hlen.
Defined.

(** ** What is posted *)

Lemma bodies_app l1 l2 : bodies (l1 ++ l2) = bodies l1 ++ bodies l2.
Proof. apply omap_app. Qed.

Lemma payloads_app l1 l2 : payloads (l1 ++ l2) = payloads l1 ++ payloads l2.
Proof. apply omap_app. Qed.


Lemma balanced_ret {A} (a : A) : balanced (ret a).
Proof. intros w. exists []. rewrite app_nil_r. split; reflexivity. Qed.

Lemma balanced_lift {A} (r : Res A) : balanced (lift r).
Proof. intros w. exists []. rewrite app_nil_r. split; reflexivity. Qed.

Lemma balanced_bind {A B} (m : M A) (k : A -> M B) :
  balanced m -> (forall a, balanced (k a)) -> balanced (bind m k).
Proof.
  intros Hm Hk w. unfold bind. destruct (Hm w) as (evs1 & Hl1 & Hb1).
  destruct (m w) as [[a|e] w1]; cbn [snd] in Hl1.
  - destruct (Hk a w1) as (evs2 & Hl2 & Hb2). exists (evs1 ++ evs2).
    rewrite Hl2, Hl1, app_assoc, bodies_app, payloads_app, Hb1, Hb2. split; reflexivity.
  - exists evs1. split; assumption.
Qed.

Section Balanced.

Variable clk : nat -> Z.
Variable http : nat -> HttpOutcome.
Variable webhook_url : string.
Variable competition : string.
Variable interval_min : Z.
Hypothesis configured : Str.is_empty webhook_url = false.

Lemma balanced_post ref text blocks :
  balanced (bind (trace (Notification ref text blocks))
                 (fun _ => slack_post http webhook_url text blocks)).
Proof.
  intros w. unfold bind, trace.
  destruct (slack_post_events http webhook_url text blocks
              (mkWorld (w_ticks w) (w_posts w) (w_log w ++ [Notification ref text blocks]))
              configured) as (w' & tail & Hrun & Hlog & Htail).
  rewrite Hrun. cbn [snd w_log] in *.
  exists (Notification ref text blocks :: Posted webhook_url (payload text blocks) :: tail).
  rewrite Hlog, <- app_assoc. split; [reflexivity|].
  destruct Htail as [->|[line ->]]; reflexivity.
Qed.

Lemma balanced_notify s ref seen el_min link submit_time :
  balanced (notify http webhook_url s ref seen el_min link submit_time).
Proof.
  unfold notify.
  destruct (_ || _); [apply balanced_post|].
  destruct (bool_decide (seen = "complete"%string)).
  { apply balanced_bind; [apply balanced_lift|]. intros jst. apply balanced_post. }
  destruct (bool_decide (seen = "error"%string)); apply balanced_post.
Qed.

Lemma balanced_report_one now_utc s track :
  balanced (report_one http webhook_url competition now_utc s track).
Proof.
  unfold report_one. apply balanced_bind; [apply balanced_lift|]. intros ref.
  destruct (ref =? -1); [apply balanced_ret|].
  destruct (track !! ref) as [info|]; [|apply balanced_ret].
  destruct (bool_decide _); [apply balanced_ret|].
  apply balanced_bind; [apply balanced_lift|]. intros el_min.
  apply balanced_bind; [apply balanced_notify|]. intros _. apply balanced_ret.
Qed.

Lemma balanced_report_loop now_utc subs :
  forall track, balanced (report_loop http webhook_url competition now_utc subs track).
Proof.
  induction subs as [|s rest IH]; intros track; cbn [report_loop]; [apply balanced_ret|].
  apply balanced_bind; [apply balanced_report_one|]. exact IH.
Qed.

Lemma balanced_track_loop subs : forall track, balanced (track_loop clk subs track).
Proof.
  intros track w.
  destruct (track_loop_spec clk subs track w) as (t1 & w1 & Hrun & Hlog & _).
  exists []. rewrite Hrun, app_nil_r. split; [exact Hlog|reflexivity].
Qed.

Lemma balanced_quiet (e : Event) :
  bodies [e] = [] -> payloads [e] = [] -> balanced (trace e).
Proof. intros Hb Hp w. exists [e]. split; [reflexivity|]. rewrite Hb, Hp. reflexivity. Qed.

Lemma balanced_now : balanced (now clk).
Proof. intros w. exists []. rewrite app_nil_r. split; reflexivity. Qed.

Lemma balanced_cycle fetched track :
  balanced (cycle clk http webhook_url competition interval_min fetched track).
Proof.
  unfold cycle. destruct fetched as [subs|e].
  - apply balanced_bind; [apply balanced_track_loop|]. intros t1.
    apply balanced_bind; [apply balanced_now|]. intros now_utc.
    apply balanced_bind; [apply balanced_report_loop|]. intros t2.
    apply balanced_bind; [apply balanced_quiet; reflexivity|].
    intros _. apply balanced_ret.
  - apply balanced_bind; [apply balanced_quiet; reflexivity|]. intros _.
    apply balanced_bind; [apply balanced_quiet; reflexivity|].
    intros _. apply balanced_ret.
Qed.

Lemma balanced_cycles feeds :
  forall track, balanced (cycles clk http webhook_url competition interval_min feeds track).
Proof.
  induction feeds as [|f rest IH]; intros track; cbn [cycles]; [apply balanced_ret|].
  apply balanced_bind; [apply balanced_cycle|]. exact IH.
Qed.

End Balanced.

(** X20. With a webhook, what the watcher posts is its startup message
    and then its notifications, one attempt each, in their order and with
    their text and blocks; whatever the sink answers, and also in a run that
    an exception stops. *)
Theorem posts_carry_the_notifications clk http webhook_url competition interval_min
    (feeds : list (Res (list PyObj))) (w : World) :
  Str.is_empty webhook_url = false -> 1 <= interval_min ->
  exists evs,
    w_log (run_watcher clk http webhook_url competition interval_min feeds w).2
    = w_log w ++ evs /\
    bodies evs = payload (startup_text competition) None :: payloads evs.
Proof.
  intros Hu Hi. unfold run_watcher.
  replace (interval_min <? 1) with false by (symmetry; apply Z.ltb_ge; exact Hi).
  unfold bind. fold (startup_text competition).
  destruct (slack_post_events http webhook_url (startup_text competition) None w Hu)
    as (w0 & tail & Hrun & Hlog & Htail).
  rewrite Hrun.
  destruct (balanced_cycles clk http webhook_url competition interval_min Hu feeds ∅ w0)
    as (evs & Hl & Hb).
  exists ((Posted webhook_url (payload (startup_text competition) None) :: tail) ++ evs).
  rewrite Hl, Hlog, <- app_assoc. split; [reflexivity|].
  rewrite bodies_app, payloads_app, Hb.
  destruct Htail as [->|[line ->]]; reflexivity.
Qed.

Lemma posts_carry_the_notifications_witness :
  exists evs,
    w_log (run_watcher Sample.clock Sample.http_down "https://hooks.example/T" "titanic" 10
             [Ok [Sample.running]] Sample.w0).2
    = w_log Sample.w0 ++ evs /\
    bodies evs = payload (startup_text "titanic") None :: payloads evs.
Proof.
  apply (posts_carry_the_notifications Sample.clock Sample.http_down
           "https://hooks.example/T" "titanic" 10 [Ok [Sample.running]] Sample.w0).
  - reflexivity.
  - lia.
Defined.

(** ** The four kinds of notification *)

